(** * Staatsblad Monitor scraper: the company-data extraction pipeline

    A shallow embedding of [backend/tools/staatsblad_scraper.py] and the
    properties of its identifier normaliser, field extractors and result
    envelope.

    Conventions of the embedding.
    - A Python [str] is a Rocq [string]; a character is read as the code
      point 0..255 it denotes (Latin-1).  On that range [\d] is [0-9], [\s]
      and [str.strip] agree on the thirteen white-space code points below,
      and [re.I] is ASCII case folding for the literal patterns of the file.
    - The [re] module is a small backtracking matcher over a regex syntax
      tree: leftmost match, alternatives in order, greedy repetitions.
    - The BeautifulSoup objects are reached through an interface whose
      queries may raise; the parsed tree is one instance of it.
    - Python exceptions (the instances of [Exception], which is what the
      handlers of the file catch) are values of an error monad that threads
      the mutable object a [try] block is filling, so that what was stored
      before a [raise] is still there in the handler. *)

From Stdlib Require Import Ascii String List Bool Arith Lia.
From stdpp Require Import gmap strings.

Set Default Proof Using "Type".
Set Warnings "-register-all".

(* ===================================================================== *)
(** * Python strings *)
(* ===================================================================== *)

Module Py.

(** [str.isspace] on one character, which is also the class [\s]. *)
Definition isspace (c : ascii) : bool :=
  let n := nat_of_ascii c in
  ((9 <=? n) && (n <=? 13)) || ((28 <=? n) && (n <=? 32))
  || (n =? 133) || (n =? 160).

(** The class [\d]. *)
Definition isdigit (c : ascii) : bool :=
  let n := nat_of_ascii c in (48 <=? n) && (n <=? 57).

(** [str.lower] on one character. *)
Definition lower_char (c : ascii) : ascii :=
  let n := nat_of_ascii c in
  if ((65 <=? n) && (n <=? 90))
     || ((192 <=? n) && (n <=? 222) && negb (n =? 215))
  then ascii_of_nat (n + 32) else c.

Fixpoint lower (s : string) : string :=
  match s with
  | EmptyString => EmptyString
  | String c s' => String (lower_char c) (lower s')
  end.

Fixpoint len (s : string) : nat :=
  match s with
  | EmptyString => 0
  | String _ s' => S (len s')
  end.

Fixpoint all (p : ascii -> bool) (s : string) : bool :=
  match s with
  | EmptyString => true
  | String c s' => p c && all p s'
  end.

Fixpoint filter (p : ascii -> bool) (s : string) : string :=
  match s with
  | EmptyString => EmptyString
  | String c s' => if p c then String c (filter p s') else filter p s'
  end.

(** [s[:n]] and [s[n:]]. *)
Fixpoint take (n : nat) (s : string) : string :=
  match n, s with
  | S n', String c s' => String c (take n' s')
  | _, _ => EmptyString
  end.

Fixpoint drop (n : nat) (s : string) : string :=
  match n, s with
  | S n', String _ s' => drop n' s'
  | _, _ => s
  end.

Fixpoint rev_onto (s acc : string) : string :=
  match s with
  | EmptyString => acc
  | String c s' => rev_onto s' (String c acc)
  end.

Definition rev (s : string) : string := rev_onto s EmptyString.

(** [str.lstrip], [str.rstrip] and [str.strip] with no argument. *)
Fixpoint lstrip (s : string) : string :=
  match s with
  | EmptyString => EmptyString
  | String c s' => if isspace c then lstrip s' else s
  end.

Definition rstrip (s : string) : string := rev (lstrip (rev s)).

Definition strip (s : string) : string := rstrip (lstrip s).

(** [s.startswith(p)]. *)
Fixpoint startswith (p s : string) : bool :=
  match p, s with
  | EmptyString, _ => true
  | String a p', String b s' => Ascii.eqb a b && startswith p' s'
  | String _ _, EmptyString => false
  end.

(** [s.endswith(p)]. *)
Definition endswith (p s : string) : bool := startswith (rev p) (rev s).

(** [sub in s]. *)
Fixpoint contains (sub s : string) : bool :=
  startswith sub s
  || match s with
     | EmptyString => false
     | String _ s' => contains sub s'
     end.

(** [s.split(sep)] for a one-character separator: never empty. *)
Fixpoint split (sep : ascii) (s : string) : list string :=
  match s with
  | EmptyString => [EmptyString]
  | String c s' =>
      if Ascii.eqb c sep then EmptyString :: split sep s'
      else match split sep s' with
           | [] => [String c EmptyString]
           | w :: ws => String c w :: ws
           end
  end.

(** [sep.join(l)]. *)
Fixpoint join (sep : string) (l : list string) : string :=
  match l with
  | [] => EmptyString
  | [x] => x
  | x :: l' => x +:+ sep +:+ join sep l'
  end.

(** [bool(s)]: a string is true when it is not empty. *)
Definition truthy (s : string) : bool :=
  match s with EmptyString => false | _ => true end.

End Py.

(* ===================================================================== *)
(** * The [re] module *)
(* ===================================================================== *)

Module Re.

(** Regular expressions, as far as the patterns of the scraper go:
    literals, character classes, greedy bounded repetition of a class,
    sequence, alternation, capturing groups and [$].  Groups are neither
    nested nor placed under an alternative in any pattern of the file, so
    the groups of a match are listed in the order they close. *)
Inductive regex : Type :=
| Eps
| Lit (c : ascii)
| Cls (p : ascii -> bool)
| Rep (p : ascii -> bool) (lo : nat) (hi : option nat)
| Seq (r1 r2 : regex)
| Alt (r1 r2 : regex)
| Grp (r : regex)
| Eos.

(** A literal string. *)
Fixpoint lit (s : string) : regex :=
  match s with
  | EmptyString => Eps
  | String c s' => Seq (Lit c) (lit s')
  end.

(** [.] without [re.DOTALL]. *)
Definition dot (c : ascii) : bool := negb (Ascii.eqb c "010"%char).

(** A literal against a character of the text; [ic] is the flag [re.I]. *)
Definition chr_eq (ic : bool) (c a : ascii) : bool :=
  if ic then Ascii.eqb (Py.lower_char c) (Py.lower_char a) else Ascii.eqb c a.

(** May a repetition bounded by [hi] take one more character? *)
Definition more (hi : option nat) : bool :=
  match hi with Some 0 => false | _ => true end.

Definition less (hi : option nat) : option nat :=
  match hi with Some n => Some (pred n) | None => None end.

(** [$]: at the end of the text, or before a newline that ends it. *)
Definition at_eos (s : string) : bool :=
  match s with
  | EmptyString => true
  | String c EmptyString => Ascii.eqb c "010"%char
  | _ => false
  end.

Section Matcher.
Context {R : Type}.

(** Greedy repetition of a class: as many characters as allowed, then one
    fewer each time the rest of the pattern fails. *)
Fixpoint rep (p : ascii -> bool) (lo : nat) (hi : option nat) (s : string)
    (k : string -> option R) : option R :=
  let stop := match lo with 0 => k s | S _ => None end in
  match s with
  | String a s' =>
      if p a && more hi then
        match rep p (pred lo) (less hi) s' k with
        | Some x => Some x
        | None => stop
        end
      else stop
  | EmptyString => stop
  end.

(** The matcher, in continuation-passing style: [k] is the rest of the
    pattern; it receives the text left and the groups closed so far. *)
Fixpoint run (ic : bool) (r : regex) (s : string) (caps : list string)
    (k : string -> list string -> option R) : option R :=
  match r with
  | Eps => k s caps
  | Lit c =>
      match s with
      | String a s' => if chr_eq ic c a then k s' caps else None
      | EmptyString => None
      end
  | Cls p =>
      match s with
      | String a s' => if p a then k s' caps else None
      | EmptyString => None
      end
  | Rep p lo hi => rep p lo hi s (fun s' => k s' caps)
  | Seq r1 r2 => run ic r1 s caps (fun s' caps' => run ic r2 s' caps' k)
  | Alt r1 r2 =>
      match run ic r1 s caps k with
      | Some x => Some x
      | None => run ic r2 s caps k
      end
  | Grp r1 =>
      run ic r1 s caps
        (fun s' caps' => k s' (caps' ++ [Py.take (Py.len s - Py.len s') s]))
  | Eos => if at_eos s then k s caps else None
  end.
End Matcher.

(** A match object: [group(0)], the groups, and the text after the match. *)
Record match_obj : Type := MatchObj {
  whole : string;
  groups : list string;
  after : string
}.

(** [pattern.match(s)]: a match at the start of [s]. *)
Definition match_at (ic : bool) (r : regex) (s : string) : option match_obj :=
  run ic r s []
    (fun s' caps => Some (MatchObj (Py.take (Py.len s - Py.len s') s) caps s')).

(** [re.search]: the first position, from the left, where the pattern
    matches. *)
Fixpoint search (ic : bool) (r : regex) (s : string) : option match_obj :=
  match match_at ic r s with
  | Some m => Some m
  | None =>
      match s with
      | String _ s' => search ic r s'
      | EmptyString => None
      end
  end.

(** [re.findall] for a pattern without groups: the matched texts, left to
    right, not overlapping.  [skip] counts the characters of the last match
    still to be passed. *)
Fixpoint findall_from (ic : bool) (r : regex) (s : string) (skip : nat)
    : list string :=
  match skip with
  | S n =>
      match s with
      | String _ s' => findall_from ic r s' n
      | EmptyString => []
      end
  | 0 =>
      match match_at ic r s with
      | Some m =>
          whole m ::
          match s with
          | String _ s' => findall_from ic r s' (pred (Py.len (whole m)))
          | EmptyString => []
          end
      | None =>
          match s with
          | String _ s' => findall_from ic r s' 0
          | EmptyString => []
          end
      end
  end.

Definition findall (ic : bool) (r : regex) (s : string) : list string :=
  findall_from ic r s 0.

(** [re.sub(pattern, '', s)]: every match is deleted. *)
Fixpoint sub_empty_from (ic : bool) (r : regex) (s : string) (skip : nat)
    : string :=
  match s with
  | EmptyString => EmptyString
  | String a s' =>
      match skip with
      | S n => sub_empty_from ic r s' n
      | 0 =>
          match match_at ic r s with
          | Some m =>
              match Py.len (whole m) with
              | 0 => String a (sub_empty_from ic r s' 0)
              | S n => sub_empty_from ic r s' n
              end
          | None => String a (sub_empty_from ic r s' 0)
          end
      end
  end.

Definition sub_empty (ic : bool) (r : regex) (s : string) : string :=
  sub_empty_from ic r s 0.

(** What a match of a pattern is, apart from the order in which the
    matcher looks for one: [matches ic r s rest caps] when [r] matches the
    text [s] followed by [rest], closing the groups [caps]. *)
Definition within (hi : option nat) (n : nat) : Prop :=
  match hi with Some h => n <= h | None => True end.

Inductive matches (ic : bool)
    : regex -> string -> string -> list string -> Prop :=
| M_eps rest : matches ic Eps EmptyString rest []
| M_lit c a rest :
    chr_eq ic c a = true -> matches ic (Lit c) (String a EmptyString) rest []
| M_cls p a rest :
    p a = true -> matches ic (Cls p) (String a EmptyString) rest []
| M_rep p lo hi s rest :
    Py.all p s = true -> lo <= Py.len s -> within hi (Py.len s) ->
    matches ic (Rep p lo hi) s rest []
| M_seq r1 r2 s1 s2 rest c1 c2 :
    matches ic r1 s1 (s2 +:+ rest) c1 -> matches ic r2 s2 rest c2 ->
    matches ic (Seq r1 r2) (s1 +:+ s2) rest (c1 ++ c2)
| M_alt_l r1 r2 s rest c :
    matches ic r1 s rest c -> matches ic (Alt r1 r2) s rest c
| M_alt_r r1 r2 s rest c :
    matches ic r2 s rest c -> matches ic (Alt r1 r2) s rest c
| M_grp r s rest c :
    matches ic r s rest c -> matches ic (Grp r) s rest (c ++ [s])
| M_eos rest : at_eos rest = true -> matches ic Eos EmptyString rest [].

End Re.

(* ===================================================================== *)
(** * Exceptions and mutable state *)
(* ===================================================================== *)

(** An exception: its class name and [str(e)]. *)
Record exn : Type := Exn { exn_class : string; exn_msg : string }.

Inductive outcome (A : Type) : Type :=
| Ok (a : A)
| Raise (e : exn).
Arguments Ok {A} a.
Arguments Raise {A} e.

(** A computation over a mutable object of type [S]: it returns or raises,
    and either way leaves the object as it has become. *)
Definition M (S A : Type) : Type := S -> outcome A * S.

Definition ret {S A} (a : A) : M S A := fun s => (Ok a, s).

Definition bind {S A B} (m : M S A) (f : A -> M S B) : M S B :=
  fun s =>
    match m s with
    | (Ok a, s') => f a s'
    | (Raise e, s') => (Raise e, s')
    end.

Definition raise {S A} (e : exn) : M S A := fun s => (Raise e, s).

(** A call that does not touch the object. *)
Definition lift {S A} (o : outcome A) : M S A := fun s => (o, s).

Definition modify {S} (f : S -> S) : M S unit := fun s => (Ok tt, f s).

(** [try: m  except Exception as e: h e]. *)
Definition try_except {S A} (m : M S A) (h : exn -> M S A) : M S A :=
  fun s =>
    match m s with
    | (Ok a, s') => (Ok a, s')
    | (Raise e, s') => h e s'
    end.

(** [try: m  except cls: h]: only exceptions of class [cls] are caught. *)
Definition try_except_class {S A} (cls : string) (m : M S A) (h : M S A)
    : M S A :=
  fun s =>
    match m s with
    | (Ok a, s') => (Ok a, s')
    | (Raise e, s') =>
        if String.eqb (exn_class e) cls then h s' else (Raise e, s')
    end.

Declare Scope py_scope.
Delimit Scope py_scope with py.
Notation "x <- m ;; k" := (bind m (fun x => k))
  (at level 100, m at level 99, right associativity) : py_scope.
Notation "m ;;; k" := (bind m (fun _ => k))
  (at level 100, right associativity) : py_scope.
Open Scope py_scope.

(** [for x in l: body x]. *)
Fixpoint for_each {S A} (l : list A) (body : A -> M S unit) : M S unit :=
  match l with
  | [] => ret tt
  | x :: l' => body x ;;; for_each l' body
  end.

(** [[f x for x in l]]. *)
Fixpoint map_m {S A B} (f : A -> M S B) (l : list A) : M S (list B) :=
  match l with
  | [] => ret []
  | x :: l' => y <- f x ;; ys <- map_m f l' ;; ret (y :: ys)
  end.

(** [l[i]]: an [IndexError] out of range. *)
Definition index {S A} (l : list A) (i : nat) : M S A :=
  match nth_error l i with
  | Some x => ret x
  | None => raise (Exn "IndexError" "list index out of range")
  end.

(* ===================================================================== *)
(** * The data model *)
(* ===================================================================== *)

(** One row of the financial table. *)
Record financial_year : Type := FinancialYear {
  year_end : string;
  assets : string;
  gross_margin : string;
  operating_profit : string;
  taxes : string;
  equity : string;
  debts : string
}.

Record activity : Type := Activity {
  activity_text : string;
  nace_code : option string
}.

Record publication : Type := Publication {
  pub_date : string;
  pub_type : string;
  full_text : string
}.

(** The directors dictionary; [directors] is the key that is only set when
    names were found. *)
Record directors_info : Type := DirectorsInfo {
  available : bool;
  requires_registration : bool;
  message : string;
  directors : option (list string)
}.

Record pdf_info : Type := PdfInfo {
  title : string;
  url : string;
  filename : string;
  pdf_type : string
}.

(** The values the company dictionary holds. *)
Inductive value : Type :=
| VStr (s : string)
| VFinancial (l : list financial_year)
| VActivities (l : list activity)
| VPublications (l : list publication)
| VDirectors (d : directors_info)
| VPdfLinks (l : list pdf_info).

(** [len(v)]. *)
Definition py_len (v : value) : nat :=
  match v with
  | VStr s => Py.len s
  | VFinancial l => length l
  | VActivities l => length l
  | VPublications l => length l
  | VDirectors d => match directors d with Some _ => 4 | None => 3 end
  | VPdfLinks l => length l
  end.

(** The dictionary [search_company] returns; [error] is the key that only
    the failure case has. *)
Record envelope : Type := Envelope {
  success : bool;
  error : option string;
  data : gmap string value;
  metadata : gmap string string
}.

(** What the logger was told. *)
Inductive log_record : Type :=
| ScrapingStart (task : string)
| LogInfo (msg : string)
| DataExtracted (task : string) (company_name : option value)
    (publications_count financial_years_count pdf_links_count : nat)
| ScrapingError (task : string) (msg : string)
| LogWarning (msg : string).

(** The world outside a call: the log and the clock. *)
Record world : Type := World {
  logged : list log_record;
  ticks : nat
}.

(** Modelled from the spec: [ScraperLogger] is imported from
    [scrapers.utils.logger], which is not among the sources; the spec has a
    contained failure "logged", so a logging call records its message and
    returns. *)
Definition log (r : log_record) : M world unit :=
  modify (fun w => World (logged w ++ [r]) (ticks w)).

(** A compiled pattern. *)
Record pattern : Type := Pattern { pat : Re.regex; icase : bool }.

Definition pattern_search (p : pattern) (s : string) : option Re.match_obj :=
  Re.search (icase p) (pat p) s.

(** The part of BeautifulSoup the scraper calls.  [tag] is a [Tag] (the
    [BeautifulSoup] object is one), [navstr] a [NavigableString]. *)
Class Soup : Type := {
  tag : Type;
  navstr : Type;
  (** [t.find(name)] *)
  find : tag -> string -> outcome (option tag);
  (** [t.find_all(names)] *)
  find_all : tag -> list string -> outcome (list tag);
  (** [t.find_all(name, attr=True)] *)
  find_all_having : tag -> string -> string -> outcome (list tag);
  (** [t.find_all_next(names, limit=n)] *)
  find_all_next : tag -> list string -> nat -> outcome (list tag);
  (** [t.find(string=pattern)] *)
  find_string : tag -> pattern -> outcome (option navstr);
  (** [t.get_text(strip=b)] *)
  get_text : tag -> bool -> outcome string;
  (** [t.get(key, default)] *)
  get_attr : tag -> string -> string -> outcome string;
  (** [s.parent] *)
  parent : navstr -> outcome (option tag);
  (** the text of a string node *)
  str_of : navstr -> string
}.

(** What else the scraper imports: the HTTP client (from
    [scrapers.utils.http_client], not among the sources), the parser's
    entry point and the clock. *)
Class Platform `{Soup} : Type := {
  response : Type;
  bytes : Type;
  (** [http_client.get(url)] *)
  http_get : string -> outcome response;
  (** [response.raise_for_status()] *)
  raise_for_status : response -> outcome unit;
  (** [response.content] *)
  content : response -> bytes;
  (** [BeautifulSoup(content, 'html.parser')] *)
  BeautifulSoup : bytes -> outcome tag;
  (** [datetime.now().isoformat()] at the n-th reading of the clock *)
  isoformat : nat -> string
}.

Definition now `{Platform} : M world string :=
  fun w => (Ok (isoformat (ticks w)), World (logged w) (S (ticks w))).

(* ===================================================================== *)
(** * The scraper *)
(* ===================================================================== *)

Module Patterns.
Import Re.

(** [[.\s]] *)
Definition separator (c : ascii) : bool :=
  Ascii.eqb c "."%char || Py.isspace c.
Definition separators : regex := Cls separator.

(** [Marnixlaan|Brussel|Antwerpen|Gent], [re.I] *)
Definition address : pattern :=
  Pattern (Alt (lit "Marnixlaan")
            (Alt (lit "Brussel") (Alt (lit "Antwerpen") (lit "Gent")))) true.

(** [Activiteiten|NACE], [re.I] *)
Definition activities : pattern :=
  Pattern (Alt (lit "Activiteiten") (lit "NACE")) true.

(** [\((\d{4,5})\)] *)
Definition nace : regex :=
  Seq (Lit "(") (Seq (Grp (Rep Py.isdigit 4 (Some 5))) (Lit ")")).

(** [Publicaties Belgisch Staatsblad], [re.I] *)
Definition publications : pattern :=
  Pattern (lit "Publicaties Belgisch Staatsblad") true.

(** [\d{2}-\d{2}-\d{4}] *)
Definition date : regex :=
  Seq (Rep Py.isdigit 2 (Some 2))
    (Seq (Lit "-")
       (Seq (Rep Py.isdigit 2 (Some 2))
          (Seq (Lit "-") (Rep Py.isdigit 4 (Some 4))))).

(** [(\d{2}-\d{2}-\d{4})\s+(.+)] *)
Definition date_type : regex :=
  Seq (Grp date) (Seq (Rep Py.isspace 1 None) (Grp (Rep dot 1 None))).

(** [Bestuurders|Directors], [re.I] *)
Definition directors : pattern :=
  Pattern (Alt (lit "Bestuurders") (lit "Directors")) true.

(** [Enkel toegankelijk voor geregistreerde gebruikers|Only accessible for
    registered users], [re.I] *)
Definition registration : pattern :=
  Pattern (Alt (lit "Enkel toegankelijk voor geregistreerde gebruikers")
             (lit "Only accessible for registered users")) true.

(** The list [pdf_patterns]. *)
Definition pdf_patterns : list regex :=
  [ Seq (lit ".pdf") Eos; lit "jaarrekening"; lit "financial";
    lit "statement"; lit "verslag"; lit "publicatie" ].

(** [https?://[^\s]+\.pdf] *)
Definition pdf_url : regex :=
  Seq (lit "http")
    (Seq (Rep (Ascii.eqb "s") 0 (Some 1))
       (Seq (lit "://")
          (Seq (Rep (fun c => negb (Py.isspace c)) 1 None) (lit ".pdf")))).

End Patterns.

(** [m.group(i)] for [i >= 1]. *)
Definition group (m : Re.match_obj) (i : nat) : string :=
  nth (pred i) (Re.groups m) EmptyString.

(** [self.base_url] *)
Definition base_url : string := "https://staatsbladmonitor.be".

(** [_clean_company_number]: dots and white space are removed. *)
Definition _clean_company_number (company_number : string) : string :=
  Re.sub_empty false Patterns.separators company_number.

(** The dictionary [key_mapping] of [_extract_basic_info]. *)
Definition key_mapping : gmap string string :=
  list_to_map
    [ ("vennootschapsnaam", "company_name");
      ("vennootschapsvorm", "legal_form");
      ("ondernemingsnummer", "company_number");
      ("status", "status");
      ("juridische situatie", "legal_situation");
      ("adres", "address");
      ("laatste publicatie", "last_publication");
      ("laatste jaarrekening", "last_annual_report") ].

(** [any(keyword in text for keyword in keywords)] *)
Definition any_keyword_in (keywords : list string) (text : string) : bool :=
  existsb (fun keyword => Py.contains keyword text) keywords.

(** The keywords that make a table a financial one. *)
Definition financial_keywords : list string :=
  [ "activa"; "brutomarge"; "bedrijfswinst"; "eigen vermogen"; "schulden" ].

(** [_extract_nace_code] *)
Definition _extract_nace_code (activity_text : string) : option string :=
  match Re.search false Patterns.nace activity_text with
  | Some nace_match => Some (group nace_match 1)
  | None => None
  end.

(** [_extract_filename_from_url]; splitting and testing a string raise
    nothing, so the handler of the bare [except] is never entered. *)
Definition _extract_filename_from_url (url : string) : string :=
  let filename := List.last (Py.split "/" url) EmptyString in
  let filename := List.hd EmptyString (Py.split "?" filename) in
  if negb (Py.endswith ".pdf" filename) then filename +:+ ".pdf" else filename.

(** [_classify_pdf_type] *)
Definition _classify_pdf_type (link_text url : string) : string :=
  let text_lower := Py.lower link_text in
  let url_lower := Py.lower url in
  let any_of keywords :=
    existsb (fun keyword =>
               Py.contains keyword text_lower || Py.contains keyword url_lower)
      keywords in
  if any_of ["jaarrekening"; "annual"; "financial"] then "annual_report"
  else if any_of ["statuten"; "articles"; "constitution"]
  then "articles_of_association"
  else if any_of ["publicatie"; "publication"; "gazette"]
  then "official_publication"
  else if any_of ["verslag"; "report"] then "report"
  else if any_of ["balans"; "balance"] then "balance_sheet"
  else "document".

(** The test [is_pdf] of [_extract_pdf_links]. *)
Definition is_pdf (href link_text : string) : bool :=
  existsb (fun p => bool_decide (is_Some (Re.search false p href)))
    Patterns.pdf_patterns
  || existsb (fun p => bool_decide (is_Some (Re.search false p link_text)))
       Patterns.pdf_patterns
  || Py.endswith ".pdf" href.

(** The absolute URL of a link. *)
Definition absolute_url (href : string) : string :=
  if Py.startswith "/" href then base_url +:+ href
  else if Py.startswith "http" href then href
  else base_url +:+ "/" +:+ href.

(** The entry of a bare URL found in the text of the page. *)
Definition text_pdf_info (url : string) : pdf_info :=
  {| title := "PDF Document - " +:+ _extract_filename_from_url url;
     url := url;
     filename := _extract_filename_from_url url;
     pdf_type := _classify_pdf_type "" url |}.

(** The second loop of [_extract_pdf_links]: a URL is added unless an
    entry already has it. *)
Definition add_text_url (pdf_links : list pdf_info) (u : string)
    : list pdf_info :=
  if bool_decide (u ∈ map url pdf_links) then pdf_links
  else pdf_links ++ [text_pdf_info u].

(** The value [directors_info] starts with. *)
Definition default_directors : directors_info :=
  {| available := false;
     requires_registration := true;
     message := "Directors information requires registration";
     directors := None |}.

Section Scraper.
Context `{P : Platform}.

(** The shape every extractor has: an object is created, a [try] block
    fills it, the handler logs a warning, and the object is returned as
    it is by then. *)
Definition guarded {S : Type} (init : S) (body : M S unit) (what : string)
    : M world S :=
  fun w =>
    match body init with
    | (Ok _, acc) => (Ok acc, w)
    | (Raise e, acc) => (log (LogWarning (what +:+ exn_msg e)) ;;; ret acc) w
    end.

(** [soup.find('h1') or soup.find('h2') or soup.find('title')] *)
Definition find_name_elem {S} (soup : tag) : M S (option tag) :=
  h1 <- lift (find soup "h1") ;;
  match h1 with
  | Some e => ret (Some e)
  | None =>
      h2 <- lift (find soup "h2") ;;
      match h2 with
      | Some e => ret (Some e)
      | None => lift (find soup "title")
      end
  end.

(** The body of the row loop of [_extract_basic_info]. *)
Definition basic_info_row (row : tag) : M (gmap string string) unit :=
  cells <- lift (find_all row ["td"; "th"]) ;;
  if 2 <=? length cells then
    c0 <- index cells 0 ;;
    t0 <- lift (get_text c0 true) ;;
    let key := Py.lower t0 in
    c1 <- index cells 1 ;;
    value <- lift (get_text c1 true) ;;
    match key_mapping !! key with
    | Some mapped => modify (insert mapped value)
    | None => modify (insert key value)
    end
  else ret tt.

Definition basic_info_body (soup : tag) : M (gmap string string) unit :=
  name_elem <- find_name_elem soup ;;
  match name_elem with
  | Some e =>
      name <- lift (get_text e true) ;; modify (insert "company_name" name)
  | None => ret tt
  end ;;;
  tables <- lift (find_all soup ["table"]) ;;
  for_each tables (fun table =>
    rows <- lift (find_all table ["tr"]) ;;
    for_each rows basic_info_row) ;;;
  address_elem <- lift (find_string soup Patterns.address) ;;
  match address_elem with
  | Some a =>
      if Py.truthy (str_of a)
      then modify (insert "full_address" (Py.strip (str_of a)))
      else ret tt
  | None => ret tt
  end.

Definition _extract_basic_info (soup : tag) : M world (gmap string string) :=
  guarded ∅ (basic_info_body soup) "Error extracting basic info: ".

(** The dictionary built from the cells of one row, the values in the
    order the literal lists them. *)
Definition financial_year_of {S} (cells : list tag) : M S financial_year :=
  c0 <- index cells 0 ;; v0 <- lift (get_text c0 true) ;;
  c1 <- index cells 1 ;; v1 <- lift (get_text c1 true) ;;
  c2 <- index cells 2 ;; v2 <- lift (get_text c2 true) ;;
  c3 <- index cells 3 ;; v3 <- lift (get_text c3 true) ;;
  c4 <- index cells 4 ;; v4 <- lift (get_text c4 true) ;;
  c5 <- index cells 5 ;; v5 <- lift (get_text c5 true) ;;
  v6 <- (if 6 <? length cells
         then (c6 <- index cells 6 ;; lift (get_text c6 true))
         else ret EmptyString) ;;
  ret (FinancialYear v0 v1 v2 v3 v4 v5 v6).

(** The body of the row loop of [_extract_financial_data]. *)
Definition financial_row (row : tag) : M (list financial_year) unit :=
  cells <- lift (find_all row ["td"; "th"]) ;;
  if 6 <=? length cells then
    try_except_class "IndexError"
      (financial_year <- financial_year_of cells ;;
       modify (fun financial_data => financial_data ++ [financial_year]))
      (ret tt)
  else ret tt.

(** The text the financial test looks at. *)
Definition header_text_of {S} (table : tag) : M S string :=
  headers <- lift (find_all table ["th"; "td"]) ;;
  texts <- map_m (fun h => lift (get_text h true)) (take 5 headers) ;;
  ret (Py.join " " texts).

Definition financial_table (table : tag) : M (list financial_year) unit :=
  header_text <- header_text_of table ;;
  if any_keyword_in financial_keywords (Py.lower header_text) then
    rows <- lift (find_all table ["tr"]) ;;
    for_each (drop 1 rows) financial_row
  else ret tt.

Definition financial_body (soup : tag) : M (list financial_year) unit :=
  tables <- lift (find_all soup ["table"]) ;;
  for_each tables financial_table.

Definition _extract_financial_data (soup : tag)
    : M world (list financial_year) :=
  guarded [] (financial_body soup) "Error extracting financial data: ".

(** The section a marker starts: the parent of the first string the
    pattern finds, when both are true. *)
Definition section_of {S} (soup : tag) (marker : pattern)
    : M S (option tag) :=
  found <- lift (find_string soup marker) ;;
  match found with
  | Some s => if Py.truthy (str_of s) then lift (parent s) else ret None
  | None => ret None
  end.

Definition activity_item (item : tag) : M (list activity) unit :=
  activity_text <- lift (get_text item true) ;;
  if Py.truthy activity_text && negb (Py.startswith "(" activity_text) then
    modify (fun activities =>
      activities ++
      [Activity activity_text (_extract_nace_code activity_text)])
  else ret tt.

Definition activities_body (soup : tag) : M (list activity) unit :=
  sec <- section_of soup Patterns.activities ;;
  match sec with
  | Some parent_tag =>
      activity_items <- lift (find_all_next parent_tag ["li"] 10) ;;
      for_each activity_items activity_item
  | None => ret tt
  end.

Definition _extract_activities (soup : tag) : M world (list activity) :=
  guarded [] (activities_body soup) "Error extracting activities: ".

(** What one entry adds to the publications, from its text. *)
Definition publication_of (entry_text : string) : option publication :=
  match Re.search false Patterns.date_type entry_text with
  | Some date_type_match =>
      Some {| pub_date := group date_type_match 1;
              pub_type := Py.strip (group date_type_match 2);
              full_text := entry_text |}
  | None => None
  end.

Definition publication_entry (entry : tag) : M (list publication) unit :=
  entry_text <- lift (get_text entry true) ;;
  match publication_of entry_text with
  | Some p => modify (fun publications => publications ++ [p])
  | None => ret tt
  end.

Definition publications_body (soup : tag) : M (list publication) unit :=
  sec <- section_of soup Patterns.publications ;;
  match sec with
  | Some parent_tag =>
      publication_entries <-
        lift (find_all_next parent_tag ["tr"; "li"] 200) ;;
      for_each publication_entries publication_entry
  | None => ret tt
  end.

Definition _extract_publications (soup : tag) : M world (list publication) :=
  guarded [] (publications_body soup) "Error extracting publications: ".

(** [[d.get_text(strip=True) for d in l if d.get_text(strip=True)]] *)
Fixpoint nonempty_texts {S} (l : list tag) : M S (list string) :=
  match l with
  | [] => ret []
  | d :: l' =>
      test <- lift (get_text d true) ;;
      if Py.truthy test then
        name <- lift (get_text d true) ;;
        names <- nonempty_texts l' ;;
        ret (name :: names)
      else nonempty_texts l'
  end.

Definition directors_body (soup : tag) : M directors_info unit :=
  sec <- section_of soup Patterns.directors ;;
  match sec with
  | Some parent_tag =>
      registration_msg <- lift (find_string parent_tag Patterns.registration) ;;
      if match registration_msg with
         | Some r => Py.truthy (str_of r)
         | None => false
         end
      then
        modify (fun d =>
          DirectorsInfo (available d) (requires_registration d)
            "Directors information requires registration" (directors d))
      else
        directors_list <- lift (find_all parent_tag ["li"; "tr"]) ;;
        match directors_list with
        | [] => ret tt
        | _ :: _ =>
            modify (fun d =>
              DirectorsInfo true (requires_registration d) (message d)
                (directors d)) ;;;
            names <- nonempty_texts directors_list ;;
            modify (fun d =>
              DirectorsInfo (available d) (requires_registration d)
                (message d) (Some names))
        end
  | None => ret tt
  end.

Definition _extract_directors (soup : tag) : M world directors_info :=
  guarded default_directors (directors_body soup)
    "Error extracting directors: ".

(** The body of the first loop of [_extract_pdf_links]. *)
Definition pdf_link (link : tag) : M (list pdf_info) unit :=
  h <- lift (get_attr link "href" "") ;;
  let href := Py.lower h in
  t <- lift (get_text link true) ;;
  let link_text := Py.lower t in
  if is_pdf href link_text then
    let full_url := absolute_url href in
    link_title <- lift (get_text link true) ;;
    modify (fun pdf_links =>
      pdf_links ++
      [ {| title := link_title;
           url := full_url;
           filename := _extract_filename_from_url full_url;
           pdf_type := _classify_pdf_type link_text href |} ])
  else ret tt.

Definition pdf_links_body (soup : tag) : M (list pdf_info) unit :=
  links <- lift (find_all_having soup "a" "href") ;;
  for_each links pdf_link ;;;
  text_content <- lift (get_text soup false) ;;
  let pdf_urls := Re.findall false Patterns.pdf_url text_content in
  for_each pdf_urls (fun u => modify (fun pdf_links => add_text_url pdf_links u)).

Definition _extract_pdf_links (soup : tag) : M world (list pdf_info) :=
  guarded [] (pdf_links_body soup) "Error extracting PDF links: ".

(** [_parse_company_page] *)
Definition _parse_company_page (soup : tag) (company_number : string)
    : M world (gmap string value) :=
  scraped_at <- now ;;
  let data0 : gmap string value :=
    <["scraped_at" := VStr scraped_at]>
      (<["company_number" := VStr company_number]> ∅) in
  info <- _extract_basic_info soup ;;
  let data1 := (VStr <$> info) ∪ data0 in
  financial_data <- _extract_financial_data soup ;;
  let data2 := <["financial_data" := VFinancial financial_data]> data1 in
  activities <- _extract_activities soup ;;
  let data3 := <["activities" := VActivities activities]> data2 in
  publications <- _extract_publications soup ;;
  let data4 := <["publications" := VPublications publications]> data3 in
  directors_found <- _extract_directors soup ;;
  let data5 := <["directors" := VDirectors directors_found]> data4 in
  pdf_links <- _extract_pdf_links soup ;;
  ret (<["pdf_links" := VPdfLinks pdf_links]> data5).

(** [len(d.get(key, []))] *)
Definition len_of (d : gmap string value) (key : string) : nat :=
  match d !! key with
  | Some v => py_len v
  | None => 0
  end.

Definition page_url (clean_number : string) : string :=
  base_url +:+ "/bedrijfsfiche.html?ondernemingsnummer=" +:+ clean_number.

(** The [try] block of [search_company]. *)
Definition search_company_body (company_number : string) : M world envelope :=
  log (ScrapingStart ("staatsblad_search_" +:+ company_number)) ;;;
  let clean_number := _clean_company_number company_number in
  let target := page_url clean_number in
  log (LogInfo ("Searching company " +:+ clean_number +:+ " at " +:+ target)) ;;;
  resp <- lift (http_get target) ;;
  lift (raise_for_status resp) ;;;
  soup <- lift (BeautifulSoup (content resp)) ;;
  company_data <- _parse_company_page soup clean_number ;;
  log (DataExtracted ("staatsblad_search_" +:+ clean_number)
         (company_data !! "company_name")
         (len_of company_data "publications")
         (len_of company_data "financial_data")
         (len_of company_data "pdf_links")) ;;;
  request_time <- now ;;
  ret {| success := true;
         error := None;
         data := company_data;
         metadata :=
           list_to_map
             [ ("source", "Staatsblad Monitor");
               ("country", "Belgium");
               ("request_time", request_time);
               ("company_number_input", company_number);
               ("company_number_clean", clean_number);
               ("url", target) ] |}.

(** The handler of [search_company]. *)
Definition search_company_failed (company_number : string) (e : exn)
    : M world envelope :=
  log (ScrapingError ("staatsblad_search_" +:+ company_number) (exn_msg e)) ;;;
  request_time <- now ;;
  ret {| success := false;
         error := Some (exn_msg e);
         data :=
           list_to_map
             [ ("status", VStr "ERROR");
               ("company_number", VStr company_number) ];
         metadata :=
           list_to_map
             [ ("source", "Staatsblad Monitor");
               ("country", "Belgium");
               ("request_time", request_time);
               ("company_number_input", company_number) ] |}.

(** [search_company] *)
Definition search_company (company_number : string) : M world envelope :=
  try_except (search_company_body company_number)
    (search_company_failed company_number).

End Scraper.

(* ===================================================================== *)
(** * The parsed document *)
(* ===================================================================== *)

Module Dom.

(** What the parser builds: tags with their attributes and contents, the
    strings of the text, and comments (strings that [find(string=...)]
    sees and [get_text] leaves out). *)
Inductive node : Type :=
| Element (name : string) (attrs : gmap string string) (contents : list node)
| Text (s : string)
| Comment (s : string).

(** A place in a document: the child numbers from the root. *)
Definition path : Type := list nat.

(** An object of the tree: the document it lives in and where. *)
Record located : Type := Located { document : node; place : path }.

(** The nodes of a tree in document order, with their places. *)
Fixpoint walk (p : path) (n : node) : list (path * node) :=
  (p, n) ::
  match n with
  | Element _ _ cs =>
      (fix children (i : nat) (cs : list node) : list (path * node) :=
         match cs with
         | [] => []
         | c :: cs' => walk (p ++ [i]) c ++ children (S i) cs'
         end) 0 cs
  | _ => []
  end.

Fixpoint subtree (n : node) (p : path) : option node :=
  match p with
  | [] => Some n
  | i :: p' =>
      match n with
      | Element _ _ cs =>
          match nth_error cs i with
          | Some c => subtree c p'
          | None => None
          end
      | _ => None
      end
  end.

(** [t.descendants] *)
Definition descendants (t : located) : list (path * node) :=
  match subtree (document t) (place t) with
  | Some n => drop 1 (walk (place t) n)
  | None => []
  end.

Fixpoint after_place (p : path) (l : list (path * node)) : list (path * node) :=
  match l with
  | [] => []
  | (q, _) :: l' => if decide (q = p) then l' else after_place p l'
  end.

(** [t.next_elements]: what the parser built after [t], its own contents
    first. *)
Definition next_elements (t : located) : list (path * node) :=
  after_place (place t) (walk [] (document t)).

(** The tags of a list of nodes that have one of the names. *)
Definition tags_named (doc : node) (names : list string)
    (l : list (path * node)) : list located :=
  omap (fun '(q, n) =>
          match n with
          | Element name _ _ =>
              if bool_decide (name ∈ names) then Some (Located doc q) else None
          | _ => None
          end) l.

Definition node_at (t : located) : option node :=
  subtree (document t) (place t).

Definition has_attr (key : string) (t : located) : bool :=
  match node_at t with
  | Some (Element _ attrs _) => bool_decide (is_Some (attrs !! key))
  | _ => false
  end.

(** The first string, text or comment, the pattern is found in. *)
Definition string_matching (doc : node) (p : pattern)
    (l : list (path * node)) : option located :=
  List.hd_error
    (omap (fun '(q, n) =>
             match n with
             | Text s | Comment s =>
                 if bool_decide (is_Some (pattern_search p s))
                 then Some (Located doc q) else None
             | Element _ _ _ => None
             end) l).

(** The strings [get_text] joins: with [strip], each one stripped, and
    dropped when nothing is left of it. *)
Definition text_pieces (strip : bool) (l : list (path * node)) : list string :=
  omap (fun '(_, n) =>
          match n with
          | Text s =>
              if strip then
                let s' := Py.strip s in
                if Py.truthy s' then Some s' else None
              else Some s
          | _ => None
          end) l.

Definition text_of (strip : bool) (t : located) : string :=
  Py.join EmptyString (text_pieces strip (descendants t)).

Definition attr_of (t : located) (key default : string) : string :=
  match node_at t with
  | Some (Element _ attrs _) =>
      match attrs !! key with
      | Some v => v
      | None => default
      end
  | _ => default
  end.

Definition parent_of (s : located) : option located :=
  match place s with
  | [] => None
  | _ :: _ => Some (Located (document s) (removelast (place s)))
  end.

Definition string_of (s : located) : string :=
  match node_at s with
  | Some (Text x) | Some (Comment x) => x
  | _ => EmptyString
  end.

(** The parsed tree as the scraper sees it: no query raises. *)
#[export] Instance soup : Soup := {|
  tag := located;
  navstr := located;
  find t name :=
    Ok (List.hd_error (tags_named (document t) [name] (descendants t)));
  find_all t names := Ok (tags_named (document t) names (descendants t));
  find_all_having t name key :=
    Ok (List.filter (has_attr key)
          (tags_named (document t) [name] (descendants t)));
  find_all_next t names limit :=
    Ok (take limit (tags_named (document t) names (next_elements t)));
  find_string t p := Ok (string_matching (document t) p (descendants t));
  get_text t strip := Ok (text_of strip t);
  get_attr t key default := Ok (attr_of t key default);
  parent s := Ok (parent_of s);
  str_of := string_of
|}.

(** The [BeautifulSoup] object of a page. *)
Definition page (contents : list node) : located :=
  Located (Element "[document]" ∅ contents) [].

(** A platform that serves one page, or no page at all; the clock reads
    the number of its reading. *)
Definition timestamp (n : nat) : string :=
  "2024-01-01T00:00:0" +:+ String (ascii_of_nat (48 + n mod 10)) EmptyString.

#[export] Instance serving (served : option (list node)) : Platform := {|
  response := list node;
  bytes := list node;
  http_get _ :=
    match served with
    | Some contents => Ok contents
    | None => Raise (Exn "ConnectionError" "connection refused")
    end;
  raise_for_status _ := Ok tt;
  content r := r;
  BeautifulSoup contents := Ok (page contents);
  isoformat := timestamp
|}.

(** The same tree behind a parser whose table query is broken. *)
Definition broken_tables : Soup := {|
  tag := located;
  navstr := located;
  find t name :=
    Ok (List.hd_error (tags_named (document t) [name] (descendants t)));
  find_all t names :=
    if bool_decide ("table" ∈ names)
    then Raise (Exn "RuntimeError" "table query failed")
    else Ok (tags_named (document t) names (descendants t));
  find_all_having t name key :=
    Ok (List.filter (has_attr key)
          (tags_named (document t) [name] (descendants t)));
  find_all_next t names limit :=
    Ok (take limit (tags_named (document t) names (next_elements t)));
  find_string t p := Ok (string_matching (document t) p (descendants t));
  get_text t strip := Ok (text_of strip t);
  get_attr t key default := Ok (attr_of t key default);
  parent s := Ok (parent_of s);
  str_of := string_of
|}.

Definition serving_broken (contents : list node) : @Platform broken_tables :=
  @Build_Platform broken_tables (list node) (list node)
    (fun _ => Ok contents) (fun _ => Ok tt) (fun r => r)
    (fun c => Ok (page c)) timestamp.

End Dom.

(* ===================================================================== *)
(** * Reading the results *)
(* ===================================================================== *)

Import Py.

Section Assembly.
Context `{P : Platform}.

(** The Fetcher and the Document Parser, one after the other, as the
    [try] block of [search_company] calls them. *)
Definition fetch_and_parse (company_number : string) : outcome tag :=
  match http_get (page_url (_clean_company_number company_number)) with
  | Ok resp =>
      match raise_for_status resp with
      | Ok _ => BeautifulSoup (content resp)
      | Raise e => Raise e
      end
  | Raise e => Raise e
  end.

(** The world after an extractor: a warning more when its body raised. *)
Definition after_guard {S : Type} (r : outcome unit * S) (what : string)
    (w : world) : world :=
  match fst r with
  | Ok _ => w
  | Raise e => World (logged w ++ [LogWarning (what +:+ exn_msg e)]) (ticks w)
  end.

(** The company dictionary, from what each [try] block has stored. *)
Definition company_data_of (soup : tag) (company_number scraped_at : string)
    : gmap string value :=
  <["pdf_links" := VPdfLinks (snd (pdf_links_body soup []))]>
    (<["directors" := VDirectors (snd (directors_body soup default_directors))]>
       (<["publications" := VPublications (snd (publications_body soup []))]>
          (<["activities" := VActivities (snd (activities_body soup []))]>
             (<["financial_data" := VFinancial (snd (financial_body soup []))]>
                ((VStr <$> snd (basic_info_body soup ∅))
                 ∪ <["scraped_at" := VStr scraped_at]>
                     (<["company_number" := VStr company_number]> ∅)))))).

Definition success_metadata (company_number request_time : string)
    : gmap string string :=
  list_to_map
    [ ("source", "Staatsblad Monitor");
      ("country", "Belgium");
      ("request_time", request_time);
      ("company_number_input", company_number);
      ("company_number_clean", _clean_company_number company_number);
      ("url", page_url (_clean_company_number company_number)) ].

Definition failure_metadata (company_number request_time : string)
    : gmap string string :=
  list_to_map
    [ ("source", "Staatsblad Monitor");
      ("country", "Belgium");
      ("request_time", request_time);
      ("company_number_input", company_number) ].

End Assembly.

(** ** Sample pages *)

Module Samples.
Import Dom.

Definition cell (s : string) : node := Element "td" ∅ [Text s].

Definition row (cells : list string) : node :=
  Element "tr" ∅ (map cell cells).

(** A page with a heading and a financial table: a header row, a row of
    six cells, a row of five and a row of eight. *)
Definition financial_table : node :=
  Element "table" ∅
    [ row ["Jaar"; "Activa"; "Brutomarge"; "Bedrijfswinst"; "Belastingen";
           "Eigen vermogen"; "Schulden"];
      row ["2023-12-31"; "1000"; "200"; "50"; "10"; "500"];
      row ["2022-12-31"; "900"; "180"; "40"; "9"];
      row ["2021-12-31"; "800"; "160"; "30"; "8"; "400"; "70"; "x"] ].

Definition company_page : list node :=
  [ Element "h1" ∅ [Text " Acme NV "]; financial_table ].

End Samples.

(** The cells of the row of six cells of the sample table. *)
Definition sample_cells : list Dom.located :=
  Dom.tags_named (Dom.document (Dom.page Samples.company_page)) ["td"; "th"]
    (Dom.descendants
       (Dom.Located (Dom.document (Dom.page Samples.company_page)) [1; 1])).

(** ** The queries of the extractors on a parsed tree *)

Module OnTree.
Import Dom.

(** The queries of the extractors, read on the tree. *)
Definition tables_of (soup : located) : list located :=
  tags_named (document soup) ["table"] (descendants soup).

Definition rows_of (table : located) : list located :=
  tags_named (document table) ["tr"] (descendants table).

Definition cells_of (row : located) : list located :=
  tags_named (document row) ["td"; "th"] (descendants row).

Definition header_text (table : located) : string :=
  join " "
    (map (text_of true)
       (list.take 5 (tags_named (document table) ["th"; "td"] (descendants table)))).

(** A table is financial when the text of its first five cells has one
    of the keywords. *)
Definition is_financial (table : located) : bool :=
  any_keyword_in financial_keywords (lower (header_text table)).

(** The spec's words: a row of six cells or more gives a record built from
    the cells 0 to 6 by position, the seventh field empty when the cell is
    absent; a shorter row gives none. *)
Definition record_of_texts (texts : list string) : option financial_year :=
  match texts with
  | y :: a :: g :: o :: t :: e :: rest =>
      Some (FinancialYear y a g o t e
              (match rest with d :: _ => d | [] => EmptyString end))
  | _ => None
  end.

Definition row_records (row : located) : list financial_year :=
  option_list (record_of_texts (map (text_of true) (cells_of row))).

End OnTree.

Import OnTree.

Module Markers.
Import Dom.



End Markers.

Import Markers.

Module Dates.


End Dates.

Import Dates.

Module Sections.
Import Dom.

(** The section a marker starts, read on the tree. *)
Definition section_on_tree (soup : located) (marker : pattern)
    : option located :=
  match string_matching (document soup) marker (descendants soup) with
  | Some s => if truthy (string_of s) then parent_of s else None
  | None => None
  end.

(** The candidate entries of the publications: the first 200 rows and
    list items after the parent of the marker. *)
Definition publication_entries (soup : located) : list located :=
  match section_on_tree soup Patterns.publications with
  | Some parent_tag =>
      list.take 200
        (tags_named (document parent_tag) ["tr"; "li"]
           (next_elements parent_tag))
  | None => []
  end.


End Sections.

Import Sections.

Module Links.
Import Dom.

(** The anchors with an [href], read on the tree. *)
Definition links_of (soup : located) : list located :=
  List.filter (has_attr "href")
    (tags_named (document soup) ["a"] (descendants soup)).

(** The entry of an anchor, when the test [is_pdf] lets it through. *)
Definition anchor_pdf_info (link : located) : option pdf_info :=
  let href := lower (attr_of link "href" EmptyString) in
  let link_text := lower (text_of true link) in
  if is_pdf href link_text then
    Some {| title := text_of true link;
            url := absolute_url href;
            filename := _extract_filename_from_url (absolute_url href);
            pdf_type := _classify_pdf_type link_text href |}
  else None.

(** The bare URLs in the text of the page. *)
Definition bare_urls (soup : located) : list string :=
  Re.findall false Patterns.pdf_url (text_of false soup).

(** The anchor of the spec's example. *)
Definition annual_report_anchor : node :=
  Element "a" {[ "href" := "/docs/jaarrekening2023.pdf" ]}
    [Text "Annual report"].

(** A page that links the same document twice. *)
Definition twice_linked_page : list node :=
  [ Element "p" ∅ [annual_report_anchor];
    Element "p" ∅ [annual_report_anchor] ].

End Links.

Import Links.

(** ** Further readings of the extractors on a parsed tree *)

Module Readings.
Import Dom.



(** Is the registration notice under the parent of the directors marker? *)
Definition registration_notice (parent_tag : located) : bool :=
  match string_matching (document parent_tag) Patterns.registration
          (descendants parent_tag) with
  | Some r => truthy (string_of r)
  | None => false
  end.

Definition director_items (parent_tag : located) : list located :=
  tags_named (document parent_tag) ["li"; "tr"] (descendants parent_tag).

(** The directors dictionary, read on the tree. *)
Definition directors_on_tree (soup : located) : directors_info :=
  match section_on_tree soup Patterns.directors with
  | Some parent_tag =>
      if registration_notice parent_tag then default_directors
      else
        match director_items parent_tag with
        | [] => default_directors
        | _ :: _ =>
            DirectorsInfo true true
              "Directors information requires registration"
              (Some (List.filter truthy
                       (map (text_of true) (director_items parent_tag))))
        end
  | None => default_directors
  end.

(** The element the company name is first taken from. *)
Definition heading_of (soup : located) : option located :=
  match List.hd_error (tags_named (document soup) ["h1"] (descendants soup)) with
  | Some e => Some e
  | None =>
      match List.hd_error
              (tags_named (document soup) ["h2"] (descendants soup)) with
      | Some e => Some e
      | None =>
          List.hd_error
            (tags_named (document soup) ["title"] (descendants soup))
      end
  end.

(** The key and the value a table row stores, when it has two cells. *)
Definition label_of_row (row : located) : option (string * string) :=
  match cells_of row with
  | c0 :: c1 :: _ =>
      let key := lower (text_of true c0) in
      Some (match key_mapping !! key with
            | Some mapped => mapped
            | None => key
            end,
            text_of true c1)
  | _ => None
  end.

(** The rows of all the tables, table by table. *)
Definition labelled_rows (soup : located) : list (string * string) :=
  omap label_of_row (flat_map rows_of (tables_of soup)).

Definition address_on_tree (soup : located) : option string :=
  match string_matching (document soup) Patterns.address (descendants soup) with
  | Some a => if truthy (string_of a) then Some (strip (string_of a)) else None
  | None => None
  end.

Definition store (info : gmap string string) (entry : string * string)
    : gmap string string :=
  <[fst entry := snd entry]> info.

(** The basic information, read on the tree: the heading, then the rows
    in order, then the address. *)
Definition basic_info_on_tree (soup : located) : gmap string string :=
  let info0 : gmap string string :=
    match heading_of soup with
    | Some e => <["company_name" := text_of true e]> ∅
    | None => ∅
    end in
  let info1 := fold_left store (labelled_rows soup) info0 in
  match address_on_tree soup with
  | Some a => <["full_address" := a]> info1
  | None => info1
  end.

(** The values of the key [type] of a PDF entry. *)
Definition pdf_types : list string :=
  [ "annual_report"; "articles_of_association"; "official_publication";
    "report"; "balance_sheet"; "document" ].

(** [any(keyword in text_lower or keyword in url_lower ...)] of
    [_classify_pdf_type]. *)
Definition mentions_any (keywords : list string) (link_text url : string)
    : bool :=
  existsb (fun keyword =>
             contains keyword (lower link_text)
             || contains keyword (lower url)) keywords.

(** The tree behind a parser one of whose queries raises: [get_text] at
    the place [text_place], [find_all] at the place [find_place]. *)
Definition failing_at (text_place find_place : option path) (e : exn)
    : Soup := {|
  tag := located;
  navstr := located;
  find t name :=
    Ok (List.hd_error (tags_named (document t) [name] (descendants t)));
  find_all t names :=
    if bool_decide (find_place = Some (place t)) then Raise e
    else Ok (tags_named (document t) names (descendants t));
  find_all_having t name key :=
    Ok (List.filter (has_attr key)
          (tags_named (document t) [name] (descendants t)));
  find_all_next t names limit :=
    Ok (list.take limit (tags_named (document t) names (next_elements t)));
  find_string t p := Ok (string_matching (document t) p (descendants t));
  get_text t strip :=
    if bool_decide (text_place = Some (place t)) then Raise e
    else Ok (text_of strip t);
  get_attr t key default := Ok (attr_of t key default);
  parent s := Ok (parent_of s);
  str_of := string_of
|}.


(** A page whose table overrides the heading and the company number. *)
Definition labelled_page : list node :=
  [ Element "h1" ∅ [Text "Bedrijfsfiche"];
    Element "table" ∅
      [ Samples.row ["Vennootschapsnaam"; "Oude naam"];
        Samples.row ["Ondernemingsnummer"; "0403.200.393"];
        Samples.row ["Vennootschapsnaam"; "Acme NV"];
        Samples.row ["Publications"; "geen"] ] ].

End Readings.

Import Readings.

(* ===================================================================== *)
(** * Facts about strings *)
(* ===================================================================== *)

Module PyFacts.
Import Py.

Lemma sapp_nil_l (s : string) : EmptyString +:+ s = s.
Proof. reflexivity. Qed.

Lemma sapp_cons (a : ascii) (s t : string) :
  String a s +:+ t = String a (s +:+ t).
Proof. reflexivity. Qed.

Lemma sapp_nil_r (s : string) : s +:+ EmptyString = s.
Proof. induction s as [|a s IH]; [reflexivity|]. by rewrite sapp_cons, IH. Qed.

Lemma sapp_assoc (s t u : string) : (s +:+ t) +:+ u = s +:+ (t +:+ u).
Proof.
  induction s as [|a s IH]; [reflexivity|]. by rewrite !sapp_cons, IH.
Qed.

Lemma len_app (s t : string) : len (s +:+ t) = len s + len t.
Proof.
  induction s as [|a s IH]; [reflexivity|]. rewrite sapp_cons. simpl.
  by rewrite IH.
Qed.

Lemma take_app_len (s t : string) : take (len (s +:+ t) - len t) (s +:+ t) = s.
Proof.
  rewrite len_app.
  replace (len s + len t - len t) with (len s) by lia.
  induction s as [|a s IH].
  - by destruct t.
  - rewrite sapp_cons. simpl. by rewrite IH.
Qed.

Lemma all_app (p : ascii -> bool) (s t : string) :
  all p (s +:+ t) = all p s && all p t.
Proof.
  induction s as [|a s IH]; [reflexivity|]. rewrite sapp_cons. simpl.
  rewrite IH. by rewrite andb_assoc.
Qed.

Lemma filter_filter (p : ascii -> bool) (s : string) :
  filter p (filter p s) = filter p s.
Proof.
  induction s as [|a s IH]; [reflexivity|]. simpl.
  destruct (p a) eqn:E; simpl; [rewrite E|]; by rewrite ?IH.
Qed.

Lemma all_filter (p : ascii -> bool) (s : string) : all p (filter p s) = true.
Proof.
  induction s as [|a s IH]; [reflexivity|]. simpl.
  destruct (p a) eqn:E; simpl; [rewrite E|]; done.
Qed.

(** A digit is not a white-space character and not a dot. *)
Lemma isdigit_not_space (c : ascii) : isdigit c = true -> isspace c = false.
Proof.
  unfold isdigit, isspace. generalize (nat_of_ascii c). intros n H.
  apply andb_true_iff in H as [H1 H2].
  apply Nat.leb_le in H1. apply Nat.leb_le in H2.
  repeat match goal with
         | |- _ || _ = false => apply orb_false_iff; split
         | |- _ && _ = false => apply andb_false_iff
         end.
  - right. apply Nat.leb_gt. lia.
  - right. apply Nat.leb_gt. lia.
  - apply Nat.eqb_neq. lia.
  - apply Nat.eqb_neq. lia.
Qed.

End PyFacts.

(* ===================================================================== *)
(** * Facts about the matcher *)
(* ===================================================================== *)

Module ReFacts.
Import Py PyFacts Re.

Section Sound.
Context {R : Type}.

Lemma within_less (hi : option nat) (n : nat) :
  more hi = true -> within (less hi) n -> within hi (S n).
Proof. destruct hi as [[|h]|]; simpl; try done. lia. Qed.

Lemma less_within (hi : option nat) (n : nat) :
  within hi (S n) -> more hi = true /\ within (less hi) n.
Proof. destruct hi as [[|h]|]; simpl; try done; lia. Qed.

(** A repetition that succeeds took a run of the class of an allowed
    length, and the rest of the pattern succeeded after it. *)
Lemma rep_sound (p : ascii -> bool) (s : string) :
  forall lo hi (k : string -> option R) x,
    rep p lo hi s k = Some x ->
    exists s1 s2,
      s = s1 +:+ s2 /\ all p s1 = true /\ lo <= len s1 /\
      within hi (len s1) /\ k s2 = Some x.
Proof.
  induction s as [|a s IH]; intros lo hi k x H; simpl in H.
  - destruct lo; [|done].
    exists EmptyString, EmptyString. repeat split; simpl; try done.
    destruct hi; simpl; [lia|done].
  - assert (Hstop : match lo with 0 => k (String a s) | S _ => None end
                    = Some x ->
                    exists s1 s2, String a s = s1 +:+ s2 /\ all p s1 = true /\
                      lo <= len s1 /\ within hi (len s1) /\ k s2 = Some x).
    { intros Hk. destruct lo; [|done].
      exists EmptyString, (String a s). repeat split; simpl; try done.
      destruct hi; simpl; [lia|done]. }
    destruct (p a && more hi) eqn:E; [|by apply Hstop].
    destruct (rep p (pred lo) (less hi) s k) as [y|] eqn:Er;
      [|by apply Hstop].
    injection H as ->.
    apply andb_true_iff in E as [Ep Em].
    destruct (IH _ _ _ _ Er) as (s1 & s2 & -> & Hall & Hlo & Hhi & Hk).
    exists (String a s1), s2. rewrite sapp_cons. simpl.
    rewrite Ep, Hall. repeat split; try done; [lia|].
    by apply within_less.
Qed.

(** Every run of the class of an allowed length is tried. *)
Lemma rep_complete (p : ascii -> bool) (s1 : string) :
  forall s2 lo hi (k : string -> option R),
    all p s1 = true -> lo <= len s1 -> within hi (len s1) ->
    is_Some (k s2) -> is_Some (rep p lo hi (s1 +:+ s2) k).
Proof.
  induction s1 as [|a s1 IH]; intros s2 lo hi k Hall Hlo Hhi Hk.
  - simpl in Hlo. assert (lo = 0) as -> by lia. rewrite sapp_nil_l.
    destruct s2 as [|b s2]; simpl; [done|].
    destruct (p b && more hi); [|done].
    by destruct (rep p 0 (less hi) s2 k).
  - rewrite sapp_cons. simpl in *.
    apply andb_true_iff in Hall as [Ep Hall].
    apply less_within in Hhi as [Em Hhi].
    rewrite Ep, Em. simpl.
    destruct (IH s2 (pred lo) (less hi) k Hall ltac:(lia) Hhi Hk) as [y ->].
    done.
Qed.

(** What the matcher finds is a match. *)
Lemma run_sound (ic : bool) (r : regex) :
  forall s caps (k : string -> list string -> option R) x,
    run ic r s caps k = Some x ->
    exists s1 s2 c,
      s = s1 +:+ s2 /\ matches ic r s1 s2 c /\ k s2 (caps ++ c) = Some x.
Proof.
  induction r as [|c|p|p lo hi|r1 IH1 r2 IH2|r1 IH1 r2 IH2|r IH|];
    intros s caps k x H; simpl in H.
  - exists EmptyString, s, []. rewrite app_nil_r.
    repeat split; [constructor|done].
  - destruct s as [|a s]; [done|]. destruct (chr_eq ic c a) eqn:E; [|done].
    exists (String a EmptyString), s, []. rewrite app_nil_r.
    repeat split; [by constructor|done].
  - destruct s as [|a s]; [done|]. destruct (p a) eqn:E; [|done].
    exists (String a EmptyString), s, []. rewrite app_nil_r.
    repeat split; [by constructor|done].
  - apply rep_sound in H as (s1 & s2 & -> & Hall & Hlo & Hhi & Hk).
    exists s1, s2, []. rewrite app_nil_r.
    repeat split; [by constructor|done].
  - apply IH1 in H as (s1 & s' & c1 & -> & H1 & H).
    apply IH2 in H as (s2 & s3 & c2 & -> & H2 & H).
    exists (s1 +:+ s2), s3, (c1 ++ c2).
    rewrite sapp_assoc, List.app_assoc. repeat split; [|done].
    by constructor.
  - destruct (run ic r1 s caps k) as [y|] eqn:E1.
    + injection H as ->.
      apply IH1 in E1 as (s1 & s2 & c & -> & H1 & H).
      exists s1, s2, c. repeat split; [by apply M_alt_l|done].
    + apply IH2 in H as (s1 & s2 & c & -> & H1 & H).
      exists s1, s2, c. repeat split; [by apply M_alt_r|done].
  - apply IH in H as (s1 & s2 & c & -> & H1 & H).
    rewrite take_app_len in H.
    exists s1, s2, (c ++ [s1]). rewrite List.app_assoc.
    repeat split; [by constructor|done].
  - destruct (at_eos s) eqn:E; [|done].
    exists EmptyString, s, []. rewrite app_nil_r.
    repeat split; [by constructor|done].
Qed.

(** Where there is a match after which the rest of the pattern succeeds,
    the matcher succeeds. *)
Lemma run_complete (ic : bool) (r : regex) (s1 rest : string)
    (c : list string) :
  matches ic r s1 rest c ->
  forall caps (k : string -> list string -> option R),
    is_Some (k rest (caps ++ c)) ->
    is_Some (run ic r (s1 +:+ rest) caps k).
Proof.
  induction 1 as [rest|c a rest E|p a rest E|p lo hi s rest Hall Hlo Hhi
                 |r1 r2 s1 s2 rest c1 c2 _ IH1 _ IH2
                 |r1 r2 s rest c _ IH|r1 r2 s rest c _ IH
                 |r s rest c _ IH|rest E];
    intros caps k Hk; cbn [run].
  - by rewrite app_nil_r in Hk.
  - rewrite sapp_cons, sapp_nil_l. rewrite E. by rewrite app_nil_r in Hk.
  - rewrite sapp_cons, sapp_nil_l. rewrite E. by rewrite app_nil_r in Hk.
  - rewrite app_nil_r in Hk.
    by apply (rep_complete p s rest lo hi (fun s' => k s' caps)).
  - rewrite sapp_assoc. apply IH1. apply IH2. by rewrite <- List.app_assoc.
  - by destruct (IH caps k Hk) as [y ->].
  - destruct (run ic r1 (s +:+ rest) caps k); [done|]. by apply IH.
  - apply IH. rewrite take_app_len. by rewrite <- List.app_assoc.
  - rewrite sapp_nil_l, E. by rewrite app_nil_r in Hk.
Qed.
End Sound.

(** [match_at] finds a match that starts the text. *)
Lemma match_at_sound (ic : bool) (r : regex) (s : string) (m : match_obj) :
  match_at ic r s = Some m ->
  s = whole m +:+ after m /\ matches ic r (whole m) (after m) (groups m).
Proof.
  unfold match_at. intros H.
  apply run_sound in H as (s1 & s2 & c & -> & Hm & H).
  rewrite take_app_len in H. injection H as <-. simpl. done.
Qed.

Lemma match_at_complete (ic : bool) (r : regex) (s1 rest : string)
    (c : list string) :
  matches ic r s1 rest c -> is_Some (match_at ic r (s1 +:+ rest)).
Proof. intros H. unfold match_at. by apply (run_complete ic r s1 rest c). Qed.

(** [re.search] finds a match somewhere in the text ... *)
Lemma search_sound (ic : bool) (r : regex) (s : string) (m : match_obj) :
  search ic r s = Some m ->
  exists before,
    s = before +:+ whole m +:+ after m /\
    matches ic r (whole m) (after m) (groups m).
Proof.
  induction s as [|a s IH]; simpl; intros H.
  - destruct (match_at ic r EmptyString) as [m'|] eqn:E; [|done].
    injection H as ->. exists EmptyString. by apply match_at_sound.
  - destruct (match_at ic r (String a s)) as [m'|] eqn:E.
    + injection H as ->. exists EmptyString. by apply match_at_sound.
    + destruct (IH H) as (before & -> & Hm).
      by exists (String a before).
Qed.

(** ... and finds one whenever there is one. *)
Lemma search_complete (ic : bool) (r : regex) (before s1 rest : string)
    (c : list string) :
  matches ic r s1 rest c -> is_Some (search ic r (before +:+ s1 +:+ rest)).
Proof.
  intros H. induction before as [|a before IH].
  - rewrite sapp_nil_l.
    destruct (match_at_complete ic r s1 rest c H) as [m Hm].
    destruct (s1 +:+ rest); simpl; by rewrite Hm.
  - rewrite sapp_cons. simpl.
    by destruct (match_at ic r (String a (before +:+ s1 +:+ rest))).
Qed.

End ReFacts.

(* ===================================================================== *)
(** * The identifier normaliser *)
(* ===================================================================== *)

Import Py PyFacts.

(** Deleting the matches of a one-character class keeps the characters
    outside the class. *)
Lemma sub_empty_class (p : ascii -> bool) (s : string) :
  Re.sub_empty false (Re.Cls p) s = filter (fun c => negb (p c)) s.
Proof.
  unfold Re.sub_empty.
  induction s as [|a s IH]; [reflexivity|].
  cbn [Re.sub_empty_from filter]. unfold Re.match_at. cbn [Re.run].
  destruct (p a); cbn [negb].
  - cbn [Re.whole len]. replace (S (len s) - len s) with 1 by lia.
    cbn [take len]. exact IH.
  - by rewrite IH.
Qed.

Lemma clean_company_number_filter (x : string) :
  _clean_company_number x = filter (fun c => negb (Patterns.separator c)) x.
Proof. apply sub_empty_class. Qed.

(** C7, as the code has it: the normaliser deletes exactly the dots and the
    white-space characters, so nothing of that kind is left; it checks
    nothing else, so its output is made of digits precisely when every
    character of the input is a digit, a dot or white space. *)
Theorem clean_company_number_removes_separators (x : string) :
  _clean_company_number x = filter (fun c => negb (Patterns.separator c)) x
  /\ all (fun c => negb (Patterns.separator c)) (_clean_company_number x) = true
  /\ all isdigit (_clean_company_number x)
     = all (fun c => isdigit c || Patterns.separator c) x.
Proof.
  rewrite clean_company_number_filter. split; [done|]. split.
  - apply all_filter.
  - induction x as [|a x IH]; [reflexivity|]. cbn [filter all].
    destruct (Patterns.separator a) eqn:E; cbn [negb all].
    + rewrite IH. by rewrite orb_true_r.
    + rewrite IH. by rewrite orb_false_r.
Qed.

(** C7, as the spec has it, fails: letters pass through. *)
Lemma clean_company_number_keeps_letters :
  _clean_company_number "BE 0403.200.393" = "BE0403200393"
  /\ all isdigit (_clean_company_number "BE 0403.200.393") = false.
Proof. split; vm_compute; reflexivity. Qed.

(** C8: normalising twice is normalising once. *)
Theorem clean_company_number_idempotent (x : string) :
  _clean_company_number (_clean_company_number x) = _clean_company_number x.
Proof. rewrite !clean_company_number_filter. apply filter_filter. Qed.

(* ===================================================================== *)
(** * The result envelope *)
(* ===================================================================== *)

Section Envelope.
Context `{P : Platform}.

(** An extractor returns what its [try] block has stored, whether the
    block ended or raised, and logs a warning in the second case. *)
Lemma guarded_returns {S : Type} (init : S) (body : M S unit)
    (what : string) (w : world) :
  guarded init body what w
  = (Ok (snd (body init)), after_guard (body init) what w).
Proof.
  unfold guarded, after_guard. by destruct (body init) as [[u|e] acc].
Qed.

Lemma ticks_after_guard {S : Type} (r : outcome unit * S) (what : string)
    (w : world) :
  ticks (after_guard r what w) = ticks w.
Proof. unfold after_guard. by destruct (fst r). Qed.

Lemma parse_company_page_returns (soup : tag) (company_number : string)
    (w : world) :
  exists w',
    _parse_company_page soup company_number w
    = (Ok (company_data_of soup company_number (isoformat (ticks w))), w')
    /\ ticks w' = S (ticks w).
Proof.
  unfold _parse_company_page, _extract_basic_info, _extract_financial_data,
    _extract_activities, _extract_publications, _extract_directors,
    _extract_pdf_links, bind, now.
  rewrite !guarded_returns. eexists. split; [reflexivity|].
  by rewrite !ticks_after_guard.
Qed.

(** What [search_company] returns, by the outcome of fetching and
    parsing. *)
Lemma search_company_returns (company_number : string) (w : world) :
  exists w',
    search_company company_number w
    = (Ok match fetch_and_parse company_number with
          | Ok soup =>
              {| success := true;
                 error := None;
                 data := company_data_of soup
                           (_clean_company_number company_number)
                           (isoformat (ticks w));
                 metadata := success_metadata company_number
                               (isoformat (S (ticks w))) |}
          | Raise e =>
              {| success := false;
                 error := Some (exn_msg e);
                 data := list_to_map
                           [ ("status", VStr "ERROR");
                             ("company_number", VStr company_number) ];
                 metadata := failure_metadata company_number
                               (isoformat (ticks w)) |}
          end, w').
Proof.
  unfold search_company, try_except, search_company_body, fetch_and_parse.
  unfold bind at 1 2 3 4 5. unfold log at 1 2. unfold modify, lift.
  cbn [logged ticks].
  destruct (http_get _) as [resp|e]; [|eexists; reflexivity].
  destruct (raise_for_status resp) as [[]|e]; [|eexists; reflexivity].
  destruct (BeautifulSoup (content resp)) as [soup|e];
    [|eexists; reflexivity].
  unfold bind.
  destruct (parse_company_page_returns soup
              (_clean_company_number company_number)
              {| logged :=
                   (logged w ++
                    [ScrapingStart ("staatsblad_search_" +:+ company_number)])
                   ++ [LogInfo ("Searching company " +:+
                                _clean_company_number company_number +:+
                                " at " +:+
                                page_url (_clean_company_number company_number))];
                 ticks := ticks w |}) as (w1 & -> & Ht).
  cbn [ticks] in Ht. unfold log, modify, now, ret. cbn [ticks logged].
  rewrite Ht. eexists. reflexivity.
Qed.

End Envelope.

Section EnvelopeClaims.
Context `{P : Platform}.

(** C1: [search_company] always returns an envelope.  When fetching or
    parsing raises, it is the failure envelope with the message of the
    exception.  Otherwise it is the success envelope, whatever happens
    inside the extractors: each of them returns what its [try] block had
    stored when it ended or raised (a warning is logged when it raised),
    which is the empty mapping, the empty list or the default directors
    when the first query of the block is the one that raises, and the
    mapping built so far when a later one does. *)
Theorem search_company_contains_failures (company_number : string)
    (w : world) :
  (exists env w',
     search_company company_number w = (Ok env, w')
     /\ (forall e, fetch_and_parse company_number = Raise e ->
           success env = false /\ error env = Some (exn_msg e))
     /\ (forall soup, fetch_and_parse company_number = Ok soup ->
           success env = true /\ error env = None
           /\ data env = company_data_of soup
                           (_clean_company_number company_number)
                           (isoformat (ticks w))))
  /\ (forall soup w1,
        _extract_basic_info soup w1
        = (Ok (snd (basic_info_body soup ∅)),
           after_guard (basic_info_body soup ∅)
             "Error extracting basic info: " w1)
        /\ _extract_financial_data soup w1
           = (Ok (snd (financial_body soup [])),
              after_guard (financial_body soup [])
                "Error extracting financial data: " w1)
        /\ _extract_activities soup w1
           = (Ok (snd (activities_body soup [])),
              after_guard (activities_body soup [])
                "Error extracting activities: " w1)
        /\ _extract_publications soup w1
           = (Ok (snd (publications_body soup [])),
              after_guard (publications_body soup [])
                "Error extracting publications: " w1)
        /\ _extract_directors soup w1
           = (Ok (snd (directors_body soup default_directors)),
              after_guard (directors_body soup default_directors)
                "Error extracting directors: " w1)
        /\ _extract_pdf_links soup w1
           = (Ok (snd (pdf_links_body soup [])),
              after_guard (pdf_links_body soup [])
                "Error extracting PDF links: " w1))
  /\ (forall soup e,
        (find_all soup ["table"] = Raise e ->
         financial_body soup [] = (Raise e, []))
        /\ (find_string soup Patterns.activities = Raise e ->
            activities_body soup [] = (Raise e, []))
        /\ (find_string soup Patterns.publications = Raise e ->
            publications_body soup [] = (Raise e, []))
        /\ (find_string soup Patterns.directors = Raise e ->
            directors_body soup default_directors
            = (Raise e, default_directors))
        /\ (find_all_having soup "a" "href" = Raise e ->
            pdf_links_body soup [] = (Raise e, []))
        /\ (find soup "h1" = Raise e ->
            basic_info_body soup ∅ = (Raise e, ∅))
        /\ (forall h name,
              find soup "h1" = Ok (Some h) -> get_text h true = Ok name ->
              find_all soup ["table"] = Raise e ->
              basic_info_body soup ∅
              = (Raise e, {[ "company_name" := name ]}))).
Proof.
  split; [|split].
  - destruct (search_company_returns company_number w) as [w' Hs].
    eexists _, w'. split; [exact Hs|]. split.
    + intros e ->. done.
    + intros soup ->. done.
  - intros soup w1. unfold _extract_basic_info, _extract_financial_data,
      _extract_activities, _extract_publications, _extract_directors,
      _extract_pdf_links. by rewrite !guarded_returns.
  - intros soup e. repeat split.
    + intros Hq. unfold financial_body, bind, lift. by rewrite Hq.
    + intros Hq. unfold activities_body, section_of, bind, lift.
      by rewrite Hq.
    + intros Hq. unfold publications_body, section_of, bind, lift.
      by rewrite Hq.
    + intros Hq. unfold directors_body, section_of, bind, lift.
      by rewrite Hq.
    + intros Hq. unfold pdf_links_body, bind, lift. by rewrite Hq.
    + intros Hq. unfold basic_info_body, find_name_elem, bind, lift.
      by rewrite Hq.
    + intros h name Hh Hn Ht.
      unfold basic_info_body, find_name_elem, bind, lift, ret, modify.
      rewrite Hh, Hn, Ht. reflexivity.
Qed.

(** C9, as the code has it: the success envelope's metadata has the six
    keys; the failure envelope's has four of them (source, country,
    request time and the identifier as given), and the envelope carries
    the message of the exception with the identifier as given. *)
Theorem envelope_metadata (company_number : string) (w : world) :
  exists env w',
    search_company company_number w = (Ok env, w')
    /\ match fetch_and_parse company_number with
       | Ok _ =>
           success env = true
           /\ metadata env
              = success_metadata company_number (isoformat (S (ticks w)))
           /\ Forall (fun key => is_Some (metadata env !! key))
                [ "source"; "country"; "request_time";
                  "company_number_input"; "company_number_clean"; "url" ]
       | Raise e =>
           success env = false
           /\ error env = Some (exn_msg e)
           /\ data env !! "status" = Some (VStr "ERROR")
           /\ data env !! "company_number" = Some (VStr company_number)
           /\ metadata env
              = failure_metadata company_number (isoformat (ticks w))
           /\ Forall (fun key => is_Some (metadata env !! key))
                [ "source"; "country"; "request_time";
                  "company_number_input" ]
       end.
Proof.
  destruct (search_company_returns company_number w) as [w' Hs].
  eexists _, w'. split; [exact Hs|].
  destruct (fetch_and_parse company_number) as [soup|e]; cbn.
  - split; [done|]. split; [done|]. unfold success_metadata.
    repeat (apply Forall_cons; split; [eexists; vm_compute; reflexivity|]).
    constructor.
  - do 5 (split; [done|]). unfold failure_metadata.
    repeat (apply Forall_cons; split; [eexists; vm_compute; reflexivity|]).
    constructor.
Qed.

End EnvelopeClaims.

(** The failure envelope lacks two of the six metadata keys, so C9 as the
    spec has it fails when the page cannot be fetched. *)
Lemma failure_envelope_lacks_metadata_keys :
  exists env w',
    @search_company Dom.soup (Dom.serving None) "0403.200.393" (World [] 0)
    = (Ok env, w')
    /\ success env = false
    /\ metadata env !! "company_number_clean" = None
    /\ metadata env !! "url" = None.
Proof. eexists _, _. split; [vm_compute; reflexivity|]. by vm_compute. Qed.

(** An instance of C1: behind a parser whose table query raises, the call
    still succeeds; the financial list is empty, the company name, stored
    before the failure, is kept, and both warnings are logged. *)
Lemma search_company_contains_failures_witness :
  (exists env w',
     @search_company Dom.broken_tables
       (Dom.serving_broken Samples.company_page) "0403.200.393" (World [] 0)
     = (Ok env, w')
     /\ success env = true
     /\ data env !! "company_name" = Some (VStr "Acme NV")
     /\ data env !! "financial_data" = Some (VFinancial [])
     /\ logged w'
        = [ ScrapingStart "staatsblad_search_0403.200.393";
            LogInfo ("Searching company 0403200393 at " +:+
                     "https://staatsbladmonitor.be/bedrijfsfiche.html" +:+
                     "?ondernemingsnummer=0403200393");
            LogWarning "Error extracting basic info: table query failed";
            LogWarning "Error extracting financial data: table query failed";
            DataExtracted "staatsblad_search_0403200393"
              (Some (VStr "Acme NV")) 0 0 0 ])
  /\ @basic_info_body Dom.broken_tables (Dom.page Samples.company_page) ∅
     = (Raise (Exn "RuntimeError" "table query failed"),
        {[ "company_name" := "Acme NV" ]}).
Proof.
  destruct (@search_company_contains_failures Dom.broken_tables
              (Dom.serving_broken Samples.company_page)
              "0403.200.393" (World [] 0))
    as [(env & w' & Hs & _ & Hok) [_ Hfirst]].
  split.
  - exists env, w'. split; [exact Hs|].
    destruct (Hok (Dom.page Samples.company_page) eq_refl) as (Hsucc & _ & _).
    split; [exact Hsucc|].
    vm_compute in Hs. injection Hs as <- <-. by vm_compute.
  - destruct (Hfirst (Dom.page Samples.company_page)
                (Exn "RuntimeError" "table query failed"))
      as (_ & _ & _ & _ & _ & _ & Hpartial).
    apply (Hpartial (Dom.Located (Dom.document (Dom.page Samples.company_page)) [0])
             "Acme NV"); reflexivity.
Defined.

(* ===================================================================== *)
(** * The financial table *)
(* ===================================================================== *)

(** Membership in a list that is written out. *)
Ltac in_list :=
  repeat first [apply list_elem_of_here | apply list_elem_of_further].

Section FinancialRows.
Context `{H : Soup}.

(** The record of a row of six cells or more, one query after the other. *)
Lemma financial_year_of_six {S : Type} (c0 c1 c2 c3 c4 c5 : tag)
    (rest : list tag) (st : S) :
  financial_year_of (c0 :: c1 :: c2 :: c3 :: c4 :: c5 :: rest) st
  = match get_text c0 true with
    | Raise e => (Raise e, st)
    | Ok v0 =>
    match get_text c1 true with
    | Raise e => (Raise e, st)
    | Ok v1 =>
    match get_text c2 true with
    | Raise e => (Raise e, st)
    | Ok v2 =>
    match get_text c3 true with
    | Raise e => (Raise e, st)
    | Ok v3 =>
    match get_text c4 true with
    | Raise e => (Raise e, st)
    | Ok v4 =>
    match get_text c5 true with
    | Raise e => (Raise e, st)
    | Ok v5 =>
    match rest with
    | [] => (Ok (FinancialYear v0 v1 v2 v3 v4 v5 EmptyString), st)
    | c6 :: _ =>
        match get_text c6 true with
        | Raise e => (Raise e, st)
        | Ok v6 => (Ok (FinancialYear v0 v1 v2 v3 v4 v5 v6), st)
        end
    end end end end end end end.
Proof.
  unfold financial_year_of, bind, lift, index, ret. cbn.
  repeat match goal with
         | |- context [get_text ?c true] => destruct (get_text c true)
         end; try reflexivity; destruct rest; cbn; try reflexivity.
  all: repeat match goal with
         | |- context [get_text ?c true] => destruct (get_text c true)
         end; reflexivity.
Qed.

Lemma six_cells (cells : list tag) :
  6 <= length cells ->
  exists c0 c1 c2 c3 c4 c5 rest,
    cells = c0 :: c1 :: c2 :: c3 :: c4 :: c5 :: rest.
Proof.
  intros Hlen.
  do 6 (destruct cells as [|? cells]; [simpl in Hlen; lia|]).
  by eexists _, _, _, _, _, _, _.
Qed.

(** C10: in a row that passed the guard of six cells, reading the cells 0
    to 5 never fails, the cell 6 is read only when there is one, and an
    exception of the record's construction can only be one that a text
    query raised; where the text queries answer, as on every parsed tree,
    the construction returns a record ([debts] empty for exactly six
    cells) and the [IndexError] handler is never entered, whatever it
    is. *)
Theorem financial_record_indexing_total {S : Type} (cells : list tag)
    (st : S) (Hguard : 6 <= length cells) :
  (forall i, i < 6 -> exists c, index cells i st = (Ok c, st))
  /\ (6 < length cells -> exists c, index cells 6 st = (Ok c, st))
  /\ (forall e st',
        financial_year_of cells st = (Raise e, st') ->
        exists c, c ∈ cells /\ get_text c true = Raise e)
  /\ ((forall c, c ∈ cells -> exists s, get_text c true = Ok s) ->
      exists record,
        financial_year_of cells st = (Ok record, st)
        /\ (length cells = 6 -> debts record = EmptyString)
        /\ forall (handler : M (list financial_year) unit) financial_data,
             try_except_class "IndexError"
               (fy <- financial_year_of cells ;;
                modify (fun financial_data => financial_data ++ [fy]))
               handler financial_data
             = (Ok tt, financial_data ++ [record])).
Proof.
  destruct (six_cells cells Hguard)
    as (c0 & c1 & c2 & c3 & c4 & c5 & rest & ->).
  split; [|split; [|split]].
  - intros i Hi. unfold index, ret.
    do 6 (destruct i as [|i]; [by eexists|]). lia.
  - intros Hlen. destruct rest as [|c6 rest]; [simpl in Hlen; lia|].
    by eexists.
  - intros e st'. rewrite financial_year_of_six.
    repeat match goal with
           | |- context [match get_text ?c true with _ => _ end] =>
               let E := fresh "E" in
               destruct (get_text c true) eqn:E;
               [|intros [= <- <-]; eexists; split; [|exact E]; in_list]
           end.
    destruct rest as [|c6 rest]; [done|].
    destruct (get_text c6 true) eqn:E6; [done|].
    intros [= <- <-]. exists c6. split; [|exact E6]. in_list.
  - intros Htext.
    assert (Hfy : exists record,
               (forall S' (st' : S'),
                  financial_year_of
                    (c0 :: c1 :: c2 :: c3 :: c4 :: c5 :: rest) st'
                  = (Ok record, st'))
               /\ (rest = [] -> debts record = EmptyString)).
    { destruct (Htext c0) as [v0 E0]; [in_list|].
      destruct (Htext c1) as [v1 E1]; [in_list|].
      destruct (Htext c2) as [v2 E2]; [in_list|].
      destruct (Htext c3) as [v3 E3]; [in_list|].
      destruct (Htext c4) as [v4 E4]; [in_list|].
      destruct (Htext c5) as [v5 E5]; [in_list|].
      destruct rest as [|c6 rest].
      - exists (FinancialYear v0 v1 v2 v3 v4 v5 EmptyString). split; [|done].
        intros S' st'. rewrite financial_year_of_six.
        by rewrite E0, E1, E2, E3, E4, E5.
      - destruct (Htext c6) as [v6 E6]; [in_list|].
        exists (FinancialYear v0 v1 v2 v3 v4 v5 v6). split; [|done].
        intros S' st'. rewrite financial_year_of_six.
        by rewrite E0, E1, E2, E3, E4, E5, E6. }
    destruct Hfy as (fy & Hfy & Hdebts). exists fy.
    split; [apply Hfy|]. split.
    + intros Hlen. apply Hdebts. by destruct rest.
    + intros handler financial_data.
      unfold try_except_class, bind. by rewrite Hfy.
Qed.

End FinancialRows.

(** An instance of C10: the row of six cells of the sample table. *)
Lemma financial_record_indexing_total_witness :
  6 <= length sample_cells
  /\ @financial_year_of Dom.soup (list financial_year) sample_cells []
     = (Ok (FinancialYear "2023-12-31" "1000" "200" "50" "10" "500" ""), []).
Proof.
  assert (Hguard : 6 <= length sample_cells) by (vm_compute; lia).
  split; [exact Hguard|].
  destruct (@financial_record_indexing_total Dom.soup (list financial_year)
              sample_cells [] Hguard) as (_ & _ & _ & Htotal).
  destruct Htotal as (record & Hrecord & Hdebts & _).
  - intros c _. by eexists.
  - rewrite Hrecord. vm_compute in Hrecord. by injection Hrecord as <-.
Defined.

(* ===================================================================== *)
(** * Loops that only append *)
(* ===================================================================== *)

Lemma for_each_appends {A B : Type} (body : A -> M (list B) unit)
    (g : A -> list B) (l : list A) :
  (forall x acc, body x acc = (Ok tt, acc ++ g x)) ->
  forall acc, for_each l body acc = (Ok tt, acc ++ flat_map g l).
Proof.
  intros Hbody. induction l as [|x l IH]; intros acc; cbn [for_each flat_map].
  - by rewrite app_nil_r.
  - unfold bind. rewrite Hbody, IH. by rewrite List.app_assoc.
Qed.

Lemma map_m_returns {S A B : Type} (f : A -> M S B) (g : A -> B)
    (l : list A) (st : S) :
  (forall x st', f x st' = (Ok (g x), st')) ->
  map_m f l st = (Ok (map g l), st).
Proof.
  intros Hf. induction l as [|x l IH]; [reflexivity|].
  cbn [map_m map]. unfold bind. by rewrite Hf, IH.
Qed.

(* ===================================================================== *)
(** * The extractors on a parsed tree *)
(* ===================================================================== *)

Lemma financial_row_on_tree (row : Dom.located)
    (financial_data : list financial_year) :
  @financial_row Dom.soup row financial_data
  = (Ok tt, financial_data ++ row_records row).
Proof.
  unfold financial_row, row_records, bind, lift. cbn [find_all Dom.soup].
  fold (cells_of row). generalize (cells_of row) as cells. intros cells.
  do 6 (destruct cells as [|? cells];
        [cbn; unfold ret; by rewrite app_nil_r|]).
  cbn [length Nat.leb]. unfold try_except_class. cbv beta.
  rewrite (financial_year_of_six (H := Dom.soup)).
  cbn [get_text Dom.soup]. by destruct cells.
Qed.

Lemma financial_table_on_tree (table : Dom.located)
    (financial_data : list financial_year) :
  @financial_table Dom.soup table financial_data
  = (Ok tt,
     financial_data ++
     if is_financial table then flat_map row_records (list.drop 1 (rows_of table))
     else []).
Proof.
  unfold financial_table, header_text_of, bind, lift.
  cbn [find_all Dom.soup].
  rewrite (map_m_returns _ (Dom.text_of true)) by done.
  unfold ret, is_financial, header_text.
  destruct (any_keyword_in financial_keywords _); cbv beta.
  - apply (for_each_appends (@financial_row Dom.soup) row_records).
    apply financial_row_on_tree.
  - by rewrite app_nil_r.
Qed.

(** C3: on a parsed page the financial extractor returns, table by table
    and row by row in document order, the records of the rows after the
    first of every financial table; a row gives a record if and only if it
    has six cells or more, the record is built from the texts of the cells
    0 to 6 by position, and its [debts] is the empty string when the row
    has exactly six cells. *)
Theorem financial_rows_need_six_cells (soup : Dom.located) (w : world) :
  @_extract_financial_data Dom.soup soup w
  = (Ok (flat_map
           (fun table => flat_map row_records (list.drop 1 (rows_of table)))
           (List.filter is_financial (tables_of soup))),
     w)
  /\ forall texts : list string,
       (is_Some (record_of_texts texts) <-> 6 <= length texts)
       /\ (forall record,
             record_of_texts texts = Some record ->
             year_end record = nth 0 texts EmptyString
             /\ assets record = nth 1 texts EmptyString
             /\ gross_margin record = nth 2 texts EmptyString
             /\ operating_profit record = nth 3 texts EmptyString
             /\ taxes record = nth 4 texts EmptyString
             /\ equity record = nth 5 texts EmptyString
             /\ debts record = nth 6 texts EmptyString
             /\ (length texts = 6 -> debts record = EmptyString)).
Proof.
  split.
  - unfold _extract_financial_data. rewrite guarded_returns.
    assert (Hbody : @financial_body Dom.soup soup []
                    = (Ok tt,
                       flat_map
                         (fun table =>
                            flat_map row_records (list.drop 1 (rows_of table)))
                         (List.filter is_financial (tables_of soup)))).
    { unfold financial_body, bind, lift. cbn [find_all Dom.soup].
      fold (tables_of soup).
      rewrite (for_each_appends _
                 (fun table =>
                    if is_financial table
                    then flat_map row_records (list.drop 1 (rows_of table))
                    else []))
        by apply financial_table_on_tree.
      cbn [app]. f_equal.
      induction (tables_of soup) as [|t l IH]; [reflexivity|].
      cbn [flat_map List.filter]. destruct (is_financial t); cbn [flat_map];
        by rewrite IH. }
    rewrite Hbody. reflexivity.
  - intros texts. split.
    + split.
      * intros [record Hr].
        do 6 (destruct texts as [|? texts]; [done|]). simpl. lia.
      * intros Hlen.
        do 6 (destruct texts as [|? texts]; [simpl in Hlen; lia|]).
        by eexists.
    + intros record Hr.
      do 6 (destruct texts as [|? texts]; [done|]).
      injection Hr as <-. cbn.
      repeat split. { by destruct texts. }
      intros Hlen. by destruct texts.
Qed.

(* ===================================================================== *)
(** * Markers *)
(* ===================================================================== *)

Lemma lower_app (s t : string) : lower (s +:+ t) = lower s +:+ lower t.
Proof.
  induction s as [|a s IH]; [reflexivity|].
  rewrite sapp_cons. cbn [lower]. by rewrite sapp_cons, IH.
Qed.

Lemma startswith_app (p s : string) : startswith p (p +:+ s) = true.
Proof.
  induction p as [|a p IH]; [reflexivity|].
  rewrite sapp_cons. cbn [startswith]. by rewrite Ascii.eqb_refl, IH.
Qed.








(* ===================================================================== *)
(** * Publications *)
(* ===================================================================== *)




Lemma matches_lit_char (c a : ascii) (s rest : string) (caps : list string) :
  Re.matches false (Re.Lit c) s rest caps ->
  s = String c EmptyString /\ caps = [].
Proof.
  intros Hm. inversion Hm as [|c' b rest' Hc| | | | | | |]; subst.
  unfold Re.chr_eq in Hc. apply Ascii.eqb_eq in Hc. by subst.
Qed.










Lemma section_of_on_tree {S : Type} (soup : Dom.located) (marker : pattern)
    (st : S) :
  @section_of Dom.soup S soup marker st
  = (Ok (section_on_tree soup marker), st).
Proof.
  unfold section_of, section_on_tree, bind, lift, ret.
  cbn [find_string parent str_of Dom.soup].
  destruct (Dom.string_matching _ _ _) as [s|]; [|reflexivity].
  by destruct (truthy (Dom.string_of s)).
Qed.

Lemma flat_map_option_list {A B : Type} (f : A -> option B) (l : list A) :
  flat_map (fun x => option_list (f x)) l = omap f l.
Proof.
  induction l as [|x l IH]; [reflexivity|]. cbn [flat_map omap list_omap].
  rewrite IH. by destruct (f x).
Qed.



(* ===================================================================== *)
(** * PDF links *)
(* ===================================================================== *)

Lemma for_each_modify {S A : Type} (f : S -> A -> S) (l : list A) (st : S) :
  for_each l (fun x => modify (fun st' => f st' x)) st
  = (Ok tt, fold_left f l st).
Proof.
  revert st. induction l as [|x l IH]; intros st; [reflexivity|].
  cbn [for_each fold_left]. unfold bind, modify at 1. apply IH.
Qed.

(** The result of the PDF-link extractor on a tree: the entries of the
    anchors, then the bare URLs added one by one. *)
Lemma pdf_links_on_tree (soup : Dom.located) (w : world) :
  @_extract_pdf_links Dom.soup soup w
  = (Ok (fold_left add_text_url (bare_urls soup)
           (omap anchor_pdf_info (links_of soup))),
     w).
Proof.
  unfold _extract_pdf_links. rewrite guarded_returns.
  assert (Hbody : @pdf_links_body Dom.soup soup []
                  = (Ok tt,
                     fold_left add_text_url (bare_urls soup)
                       (omap anchor_pdf_info (links_of soup)))).
  { unfold pdf_links_body, bind at 1 2, lift.
    cbn [find_all_having Dom.soup]. fold (links_of soup).
    rewrite (for_each_appends (@pdf_link Dom.soup)
               (fun link => option_list (anchor_pdf_info link))).
    - unfold bind. cbn [get_text Dom.soup app].
      rewrite flat_map_option_list. apply for_each_modify.
    - intros link acc. unfold pdf_link, anchor_pdf_info, bind, lift.
      cbn [get_attr get_text Dom.soup].
      destruct (is_pdf _ _); cbn [option_list].
      + reflexivity.
      + unfold ret. by rewrite app_nil_r. }
  rewrite Hbody. reflexivity.
Qed.

Lemma url_text_pdf_info (u : string) : url (text_pdf_info u) = u.
Proof. reflexivity. Qed.

Lemma elem_of_map {A B : Type} (f : A -> B) (l : list A) (y : B) :
  y ∈ map f l <-> exists x, y = f x /\ x ∈ l.
Proof.
  rewrite list_elem_of_In, in_map_iff. split.
  - intros (x & <- & Hx). exists x. by rewrite list_elem_of_In.
  - intros (x & -> & Hx). exists x. by rewrite <- list_elem_of_In.
Qed.

(** What the second loop adds. *)
Lemma add_text_urls (urls : list string) :
  forall pdf_links,
    exists texts,
      fold_left add_text_url urls pdf_links = pdf_links ++ texts
      /\ NoDup (map url texts)
      /\ (forall t, t ∈ texts ->
            (url t ∉ map url pdf_links) /\ (url t ∈ urls)
            /\ t = text_pdf_info (url t))
      /\ (forall u, u ∈ urls -> u ∈ map url (pdf_links ++ texts)).
Proof.
  induction urls as [|u urls IH]; intros pdf_links; cbn [fold_left].
  - exists []. rewrite app_nil_r. split; [done|]. split; [constructor|].
    split.
    + intros t Ht. by apply elem_of_nil in Ht.
    + intros u Hu. by apply elem_of_nil in Hu.
  - unfold add_text_url at 2. case_bool_decide as Hin.
    + destruct (IH pdf_links) as (texts & Heq & Hnd & Htexts & Hall).
      exists texts. split; [exact Heq|]. split; [exact Hnd|]. split.
      * intros t Ht. destruct (Htexts t Ht) as (H1 & H2 & H3).
        repeat split; try done. by apply list_elem_of_further.
      * intros u' Hu'. apply elem_of_cons in Hu' as [->|Hu'].
        -- rewrite map_app. apply elem_of_app. by left.
        -- by apply Hall.
    + destruct (IH (pdf_links ++ [text_pdf_info u]))
        as (texts & Heq & Hnd & Htexts & Hall).
      exists (text_pdf_info u :: texts).
      split; [by rewrite Heq, <- List.app_assoc|].
      assert (Hfresh : forall t, t ∈ texts -> url t <> u).
      { intros t Ht Heqt. destruct (Htexts t Ht) as (Hnot & _).
        apply Hnot. rewrite map_app. apply elem_of_app. right.
        cbn [map]. rewrite url_text_pdf_info, Heqt. apply list_elem_of_here. }
      split; [|split].
      * cbn [map]. rewrite url_text_pdf_info. apply NoDup_cons. split; [|done].
        intros Hu. apply elem_of_map in Hu as (t & Ht1 & Ht2).
        by apply (Hfresh t).
      * intros t Ht. apply elem_of_cons in Ht as [->|Ht].
        -- rewrite url_text_pdf_info. repeat split; try done.
           apply list_elem_of_here.
        -- destruct (Htexts t Ht) as (H1 & H2 & H3). repeat split; try done.
           ++ intros Hc. apply H1. rewrite map_app. apply elem_of_app.
              by left.
           ++ by apply list_elem_of_further.
      * intros u' Hu'. rewrite <- List.app_assoc in Hall. cbn [app] in Hall.
        apply elem_of_cons in Hu' as [->|Hu'].
        -- rewrite map_app. apply elem_of_app. right. cbn [map].
           rewrite url_text_pdf_info. apply list_elem_of_here.
        -- by apply Hall.
Qed.

(** C2, as the code has it: the list is the entries of the anchors, one for
    every anchor that passes the test, followed by the entries of the bare
    URLs of the text; an entry of a bare URL is added only when no entry
    before it, of an anchor or of an earlier bare URL, has the same URL
    string, so these entries are without repetition and take up none of
    the URLs of the anchors, and every bare URL is in the list. *)
Theorem text_urls_repeat_no_entry (soup : Dom.located) (w : world) :
  exists texts,
    @_extract_pdf_links Dom.soup soup w
    = (Ok (omap anchor_pdf_info (links_of soup) ++ texts), w)
    /\ NoDup (map url texts)
    /\ (forall t, t ∈ texts ->
          (url t ∉ map url (omap anchor_pdf_info (links_of soup)))
          /\ (url t ∈ bare_urls soup)
          /\ t = text_pdf_info (url t))
    /\ (forall u, u ∈ bare_urls soup ->
          u ∈ map url (omap anchor_pdf_info (links_of soup) ++ texts)).
Proof.
  rewrite pdf_links_on_tree.
  destruct (add_text_urls (bare_urls soup)
              (omap anchor_pdf_info (links_of soup)))
    as (texts & -> & Hnd & Htexts & Hall).
  by exists texts.
Qed.

(** Two anchors with the same [href] give two entries with the same URL,
    so C2 as the spec has it fails. *)
Lemma two_anchors_two_entries :
  exists entry,
    @_extract_pdf_links Dom.soup (Dom.page twice_linked_page) (World [] 0)
    = (Ok [entry; entry], World [] 0)
    /\ url entry = "https://staatsbladmonitor.be/docs/jaarrekening2023.pdf"
    /\ ~ NoDup (map url [entry; entry]).
Proof.
  eexists. split; [vm_compute; reflexivity|]. split; [reflexivity|].
  intros Hnd. apply NoDup_cons in Hnd as [Hnot _]. apply Hnot.
  apply list_elem_of_here.
Qed.

Lemma fold_add_text_url_keeps (urls : list string) (entry : pdf_info) :
  forall pdf_links,
    entry ∈ pdf_links -> entry ∈ fold_left add_text_url urls pdf_links.
Proof.
  induction urls as [|u urls IH]; intros pdf_links Hin; [done|].
  cbn [fold_left]. apply IH. unfold add_text_url.
  case_bool_decide; [done|]. apply elem_of_app. by left.
Qed.

(** C5: an anchor whose [href] is "/docs/jaarrekening2023.pdf" and whose
    text is "Annual report" gives an entry whose URL is the base URL
    followed by the [href] and whose type is "annual_report". *)
Theorem root_relative_annual_report (soup link : Dom.located) (w : world)
    (Hlink : link ∈ links_of soup)
    (Hhref : Dom.attr_of link "href" "" = "/docs/jaarrekening2023.pdf")
    (Htext : Dom.text_of true link = "Annual report") :
  exists pdf_links entry,
    @_extract_pdf_links Dom.soup soup w = (Ok pdf_links, w)
    /\ entry ∈ pdf_links
    /\ title entry = "Annual report"
    /\ url entry = "https://staatsbladmonitor.be/docs/jaarrekening2023.pdf"
    /\ url entry = base_url +:+ "/docs/jaarrekening2023.pdf"
    /\ filename entry = "jaarrekening2023.pdf"
    /\ pdf_type entry = "annual_report".
Proof.
  rewrite pdf_links_on_tree.
  assert (Hentry : anchor_pdf_info link
                   = Some {| title := "Annual report";
                             url := "https://staatsbladmonitor.be/docs/jaarrekening2023.pdf";
                             filename := "jaarrekening2023.pdf";
                             pdf_type := "annual_report" |}).
  { unfold anchor_pdf_info. rewrite Hhref, Htext. vm_compute. reflexivity. }
  eexists _, _. split; [reflexivity|]. split.
  - apply fold_add_text_url_keeps. apply list_elem_of_omap.
    exists link. split; [exact Hlink|exact Hentry].
  - repeat split.
Qed.

(** An instance: the page that has the anchor and nothing else. *)
Lemma root_relative_annual_report_witness :
  @_extract_pdf_links Dom.soup (Dom.page [annual_report_anchor]) (World [] 0)
  = (Ok [ {| title := "Annual report";
             url := "https://staatsbladmonitor.be/docs/jaarrekening2023.pdf";
             filename := "jaarrekening2023.pdf";
             pdf_type := "annual_report" |} ],
     World [] 0).
Proof.
  destruct (root_relative_annual_report (Dom.page [annual_report_anchor])
              (Dom.Located (Dom.document (Dom.page [annual_report_anchor])) [0])
              (World [] 0))
    as (pdf_links & entry & Heq & _).
  - vm_compute. apply list_elem_of_here.
  - vm_compute. reflexivity.
  - vm_compute. reflexivity.
  - rewrite Heq. vm_compute in Heq. by injection Heq as <-.
Defined.

(* ===================================================================== *)
(** * Worked examples *)
(* ===================================================================== *)

Example clean_company_number_dotted :
  _clean_company_number "0403.200.393" = "0403200393".
Proof. vm_compute. reflexivity. Qed.

Example nace_code_of_activity :
  _extract_nace_code "Holdings (64200)" = Some "64200"
  /\ _extract_nace_code "Holdings (642)" = None.
Proof. split; vm_compute; reflexivity. Qed.

Example filename_of_url :
  _extract_filename_from_url "https://staatsbladmonitor.be/docs/a?x=1"
  = "a.pdf".
Proof. vm_compute. reflexivity. Qed.

Example bare_urls_of_text :
  Re.findall false Patterns.pdf_url
    "zie https://x.be/a.pdf en http://y.be/b.pdf.pdf of https://z.be/c"
  = ["https://x.be/a.pdf"; "http://y.be/b.pdf.pdf"].
Proof. vm_compute. reflexivity. Qed.

(** The sample table: the row of six cells gives a record with empty
    [debts], the row of five gives none, the row of eight gives its first
    seven cells. *)
Example financial_data_of_sample_page :
  @_extract_financial_data Dom.soup (Dom.page Samples.company_page)
    (World [] 0)
  = (Ok [ FinancialYear "2023-12-31" "1000" "200" "50" "10" "500" "";
          FinancialYear "2021-12-31" "800" "160" "30" "8" "400" "70" ],
     World [] 0).
Proof. vm_compute. reflexivity. Qed.

(** A bare URL that an anchor already listed is not added again. *)
Example anchor_and_bare_url_once :
  @_extract_pdf_links Dom.soup
    (Dom.page
       [ annual_report_anchor;
         Dom.Text " https://staatsbladmonitor.be/docs/jaarrekening2023.pdf " ])
    (World [] 0)
  = (Ok [ {| title := "Annual report";
             url := "https://staatsbladmonitor.be/docs/jaarrekening2023.pdf";
             filename := "jaarrekening2023.pdf";
             pdf_type := "annual_report" |} ],
     World [] 0).
Proof. vm_compute. reflexivity. Qed.

(* ===================================================================== *)
(** * Further properties: the string helpers *)
(* ===================================================================== *)

Lemma filter_app (p : ascii -> bool) (s t : string) :
  filter p (s +:+ t) = filter p s +:+ filter p t.
Proof.
  induction s as [|a s IH]; [reflexivity|]. rewrite sapp_cons. cbn [filter].
  destruct (p a); by rewrite ?sapp_cons, IH.
Qed.

Lemma len_filter (p : ascii -> bool) (s : string) : len (filter p s) <= len s.
Proof.
  induction s as [|a s IH]; [done|]. cbn [filter]. destruct (p a); simpl; lia.
Qed.

Lemma filter_all (p : ascii -> bool) (s : string) :
  filter p s = s <-> all p s = true.
Proof.
  induction s as [|a s IH]; [done|]. cbn [filter all].
  destruct (p a) eqn:E; cbn [andb].
  - rewrite <- IH. split; [by intros [= ?]|by intros ->].
  - split; [|done]. intros Heq.
    pose proof (len_filter p s) as Hlen. rewrite Heq in Hlen. simpl in Hlen.
    lia.
Qed.

(** The normaliser goes through a concatenation, never makes an identifier
    longer, and changes an identifier if and only if it has a dot or a
    white-space character. *)
Theorem clean_company_number_concat (x y : string) :
  _clean_company_number (x +:+ y)
  = _clean_company_number x +:+ _clean_company_number y
  /\ len (_clean_company_number x) <= len x
  /\ (_clean_company_number x = x
      <-> all (fun c => negb (Patterns.separator c)) x = true).
Proof.
  rewrite !clean_company_number_filter. split; [apply filter_app|].
  split; [apply len_filter|apply filter_all].
Qed.

Lemma rev_onto_app (s acc : string) :
  rev_onto s acc = rev_onto s EmptyString +:+ acc.
Proof.
  revert acc. induction s as [|a s IH]; intros acc; [reflexivity|].
  cbn [rev_onto]. rewrite (IH (String a acc)), (IH (String a EmptyString)).
  by rewrite sapp_assoc.
Qed.

Lemma rev_app (s t : string) : rev (s +:+ t) = rev t +:+ rev s.
Proof.
  unfold rev. induction s as [|a s IH].
  - by rewrite sapp_nil_l, sapp_nil_r.
  - rewrite sapp_cons. cbn [rev_onto].
    rewrite (rev_onto_app (s +:+ t)), (rev_onto_app s), IH.
    by rewrite sapp_assoc.
Qed.

Lemma endswith_app (s p : string) : endswith p (s +:+ p) = true.
Proof. unfold endswith. rewrite rev_app. apply startswith_app. Qed.

(** The pieces of a split keep what holds of every character, and have no
    separator; a string without separator is its only piece. *)
Lemma split_all (q : ascii -> bool) (sep : ascii) (s : string) :
  all q s = true -> Forall (fun piece => all q piece = true) (split sep s).
Proof.
  induction s as [|c s IH]; intros Hq; cbn [split].
  - by constructor.
  - cbn [all] in Hq. apply andb_true_iff in Hq as [Hc Hs].
    specialize (IH Hs). destruct (Ascii.eqb c sep).
    + by constructor.
    + destruct (split sep s) as [|piece pieces].
      * constructor; [|done]. cbn [all]. by rewrite Hc.
      * apply Forall_cons in IH as [Hp Hps].
        constructor; [|done]. cbn [all]. by rewrite Hc, Hp.
Qed.

Lemma split_pieces (sep : ascii) (s : string) :
  Forall (fun piece => all (fun c => negb (Ascii.eqb c sep)) piece = true)
    (split sep s).
Proof.
  induction s as [|c s IH]; cbn [split].
  - by constructor.
  - destruct (Ascii.eqb c sep) eqn:E.
    + by constructor.
    + destruct (split sep s) as [|piece pieces].
      * constructor; [|done]. cbn [all]. by rewrite E.
      * apply Forall_cons in IH as [Hp Hps].
        constructor; [|done]. cbn [all]. by rewrite E, Hp.
Qed.

Lemma split_without_separator (sep : ascii) (s : string) :
  all (fun c => negb (Ascii.eqb c sep)) s = true -> split sep s = [s].
Proof.
  induction s as [|c s IH]; intros Hs; [reflexivity|].
  cbn [all] in Hs. apply andb_true_iff in Hs as [Hc Hs].
  cbn [split]. apply negb_true_iff in Hc. by rewrite Hc, (IH Hs).
Qed.

Lemma Forall_last {A : Type} (P : A -> Prop) (l : list A) (d : A) :
  Forall P l -> P d -> P (List.last l d).
Proof.
  intros Hl Hd. induction Hl as [|x l Hx Hl IH]; [done|].
  destruct l; [done|]. exact IH.
Qed.

Lemma Forall_hd {A : Type} (P : A -> Prop) (l : list A) (d : A) :
  Forall P l -> P d -> P (List.hd d l).
Proof. intros Hl Hd. by destruct Hl. Qed.

(** The shape of the file name of a URL. *)
Lemma filename_from_url_shape (u : string) :
  endswith ".pdf" (_extract_filename_from_url u) = true
  /\ all (fun c => negb (Ascii.eqb c "/")) (_extract_filename_from_url u) = true
  /\ all (fun c => negb (Ascii.eqb c "?")) (_extract_filename_from_url u) = true.
Proof.
  unfold _extract_filename_from_url.
  set (segment := List.last (split "/" u) EmptyString).
  set (name := List.hd EmptyString (split "?" segment)).
  assert (Hseg : all (fun c => negb (Ascii.eqb c "/")) segment = true).
  { apply (Forall_last
             (fun piece => all (fun c => negb (Ascii.eqb c "/")) piece = true));
      [apply split_pieces|done]. }
  assert (Hslash : all (fun c => negb (Ascii.eqb c "/")) name = true).
  { apply (Forall_hd
             (fun piece => all (fun c => negb (Ascii.eqb c "/")) piece = true));
      [by apply split_all|done]. }
  assert (Hmark : all (fun c => negb (Ascii.eqb c "?")) name = true).
  { apply (Forall_hd
             (fun piece => all (fun c => negb (Ascii.eqb c "?")) piece = true));
      [apply split_pieces|done]. }
  destruct (endswith ".pdf" name) eqn:E; cbn [negb].
  - done.
  - rewrite endswith_app, !all_app, Hslash, Hmark. done.
Qed.

(** The file name of a URL ends with [.pdf], has no slash and no question
    mark, and is its own file name. *)
Theorem filename_from_url_is_a_pdf_name (u : string) :
  endswith ".pdf" (_extract_filename_from_url u) = true
  /\ all (fun c => negb (Ascii.eqb c "/")) (_extract_filename_from_url u) = true
  /\ all (fun c => negb (Ascii.eqb c "?")) (_extract_filename_from_url u) = true
  /\ _extract_filename_from_url (_extract_filename_from_url u)
     = _extract_filename_from_url u.
Proof.
  destruct (filename_from_url_shape u) as (Hend & Hslash & Hmark).
  repeat split; try done.
  unfold _extract_filename_from_url at 1.
  rewrite (split_without_separator "/" _ Hslash). cbn [List.last].
  rewrite (split_without_separator "?" _ Hmark). cbn [List.hd].
  by rewrite Hend.
Qed.

(** The type of a PDF is one of the six. *)
Lemma classify_pdf_type_in_types (link_text u : string) :
  _classify_pdf_type link_text u ∈ pdf_types.
Proof.
  unfold _classify_pdf_type, pdf_types. cbv zeta.
  repeat match goal with
         | |- context [if ?b then _ else _] => destruct b
         end; in_list.
Qed.

(** The type of a PDF is one of six, decided by the first group of
    keywords, in the order of the code, that the lowered text or the
    lowered URL mentions: the annual-report words come before the words of
    the articles, these before the publication words, these before the
    report words, these before the balance words. *)
Theorem classify_pdf_type_priority (link_text u : string) :
  _classify_pdf_type link_text u ∈ pdf_types
  /\ (_classify_pdf_type link_text u = "annual_report"
      <-> mentions_any ["jaarrekening"; "annual"; "financial"] link_text u
          = true)
  /\ (_classify_pdf_type link_text u = "articles_of_association"
      <-> mentions_any ["jaarrekening"; "annual"; "financial"] link_text u
          = false
          /\ mentions_any ["statuten"; "articles"; "constitution"] link_text u
             = true)
  /\ (_classify_pdf_type link_text u = "official_publication"
      <-> mentions_any ["jaarrekening"; "annual"; "financial"] link_text u
          = false
          /\ mentions_any ["statuten"; "articles"; "constitution"] link_text u
             = false
          /\ mentions_any ["publicatie"; "publication"; "gazette"] link_text u
             = true)
  /\ (_classify_pdf_type link_text u = "report"
      <-> mentions_any ["jaarrekening"; "annual"; "financial"] link_text u
          = false
          /\ mentions_any ["statuten"; "articles"; "constitution"] link_text u
             = false
          /\ mentions_any ["publicatie"; "publication"; "gazette"] link_text u
             = false
          /\ mentions_any ["verslag"; "report"] link_text u = true)
  /\ (_classify_pdf_type link_text u = "document"
      <-> mentions_any
            [ "jaarrekening"; "annual"; "financial"; "statuten"; "articles";
              "constitution"; "publicatie"; "publication"; "gazette";
              "verslag"; "report"; "balans"; "balance" ] link_text u
          = false).
Proof.
  unfold _classify_pdf_type, mentions_any, pdf_types. cbv zeta.
  cbn [existsb].
  generalize (lower link_text) as t, (lower u) as v. intros t v.
  destruct (contains "jaarrekening" t), (contains "jaarrekening" v),
    (contains "annual" t), (contains "annual" v),
    (contains "financial" t), (contains "financial" v); cbn [orb];
    try (split; [in_list|repeat split; intros; try done; intuition congruence]).
  destruct (contains "statuten" t), (contains "statuten" v),
    (contains "articles" t), (contains "articles" v),
    (contains "constitution" t), (contains "constitution" v); cbn [orb];
    try (split; [in_list|repeat split; intros; try done; intuition congruence]).
  destruct (contains "publicatie" t), (contains "publicatie" v),
    (contains "publication" t), (contains "publication" v),
    (contains "gazette" t), (contains "gazette" v); cbn [orb];
    try (split; [in_list|repeat split; intros; try done; intuition congruence]).
  destruct (contains "verslag" t), (contains "verslag" v),
    (contains "report" t), (contains "report" v); cbn [orb];
    try (split; [in_list|repeat split; intros; try done; intuition congruence]).
  destruct (contains "balans" t), (contains "balans" v),
    (contains "balance" t), (contains "balance" v); cbn [orb];
    split; try in_list; repeat split; intros; try done; intuition congruence.
Qed.

(** A match of a literal without [re.I] is the literal. *)
Lemma matches_lit_exact (word s rest : string) (c : list string) :
  Re.matches false (Re.lit word) s rest c -> s = word /\ c = [].
Proof.
  revert s rest c. induction word as [|a word IH]; intros s rest c Hm;
    cbn [Re.lit] in Hm.
  - by inversion Hm.
  - inversion Hm as [| | | |r1 r2 s1 s2 rest' c1 c2 H1 H2| | | |]; subst.
    apply matches_lit_char in H1 as [-> ->]; [|exact a].
    apply IH in H2 as [-> ->]. by rewrite sapp_cons, sapp_nil_l.
Qed.

Lemma lit_matches (word rest : string) :
  Re.matches false (Re.lit word) word rest [].
Proof.
  revert rest. induction word as [|a word IH]; intros rest; cbn [Re.lit].
  - constructor.
  - apply (Re.M_seq false _ _ (String a EmptyString) word rest [] []).
    + apply Re.M_lit. apply Ascii.eqb_refl.
    + apply IH.
Qed.

(** The matches of [\((\d{4,5})\)]. *)
Lemma matches_nace (s rest : string) (c : list string) :
  Re.matches false Patterns.nace s rest c ->
  exists code,
    s = "(" +:+ code +:+ ")" /\ c = [code]
    /\ all isdigit code = true /\ 4 <= len code <= 5.
Proof.
  unfold Patterns.nace. intros Hm.
  inversion Hm as [| | | |? ? s1 s23 ? c1 c23 H1 H23| | | |]; subst.
  inversion H23 as [| | | |? ? s2 s3 ? c2 c3 H2 H3| | | |]; subst.
  inversion H2; subst.
  apply matches_lit_char in H1 as [-> ->]; [|exact "("%char].
  apply matches_lit_char in H3 as [-> ->]; [|exact ")"%char].
  match goal with
  | Hg : Re.matches _ (Re.Rep _ _ _) ?code _ _ |- _ =>
      inversion Hg; subst; exists code
  end.
  cbn [Re.within] in *. repeat split; try done.
Qed.

(** [_extract_nace_code] returns four or five digits that stand between
    parentheses in the text, and returns some whenever the text has four or
    five digits between parentheses. *)
Theorem nace_code_is_parenthesised_digits (activity_text : string) :
  (forall code,
     _extract_nace_code activity_text = Some code ->
     all isdigit code = true /\ 4 <= len code <= 5
     /\ exists before after,
          activity_text = before +:+ "(" +:+ code +:+ ")" +:+ after)
  /\ (forall before code after,
        activity_text = before +:+ "(" +:+ code +:+ ")" +:+ after ->
        all isdigit code = true -> 4 <= len code <= 5 ->
        is_Some (_extract_nace_code activity_text)).
Proof.
  unfold _extract_nace_code. split.
  - intros code Hc.
    destruct (Re.search false Patterns.nace activity_text) as [m|] eqn:Hs;
      [|done].
    injection Hc as <-.
    apply ReFacts.search_sound in Hs as (before & -> & Hm).
    apply matches_nace in Hm as (code & Hw & Hg & Hd & Hlen).
    unfold group. rewrite Hg, Hw. cbn [pred nth].
    repeat split; try done; try lia.
    exists before, (Re.after m). by rewrite !sapp_assoc.
  - intros before code after -> Hd Hlen.
    assert (Hm : Re.matches false Patterns.nace ("(" +:+ code +:+ ")") after
                   ([] ++ ([] ++ [code]) ++ [])).
    { unfold Patterns.nace.
      apply (Re.M_seq false _ _ "(" (code +:+ ")") after).
      - apply Re.M_lit. apply Ascii.eqb_refl.
      - apply (Re.M_seq false _ _ code ")" after).
        + apply Re.M_grp. apply Re.M_rep; [done|lia|cbn; lia].
        + apply Re.M_lit. apply Ascii.eqb_refl. }
    apply (ReFacts.search_complete false Patterns.nace before) in Hm.
    rewrite !sapp_assoc in Hm. destruct Hm as [m ->]. by eexists.
Qed.

(* ===================================================================== *)
(** * Further properties: the PDF entries *)
(* ===================================================================== *)

Lemma lower_char_lower_char (c : ascii) :
  lower_char (lower_char c) = lower_char c.
Proof. destruct c as [[] [] [] [] [] [] [] []]; vm_compute; reflexivity. Qed.

Lemma lower_lower (s : string) : lower (lower s) = lower s.
Proof.
  induction s as [|a s IH]; [reflexivity|]. cbn [lower].
  by rewrite lower_char_lower_char, IH.
Qed.

Lemma all_impl (p q : ascii -> bool) (s : string) :
  (forall c, p c = true -> q c = true) -> all p s = true -> all q s = true.
Proof.
  intros Hpq. induction s as [|a s IH]; [done|]. cbn [all].
  intros H. apply andb_true_iff in H as [Ha Hs].
  by rewrite (Hpq a Ha), (IH Hs).
Qed.

(** What [re.findall] lists are matches of the pattern in the text. *)
Lemma findall_from_sound (ic : bool) (r : Re.regex) (s : string) :
  forall skip x,
    x ∈ Re.findall_from ic r s skip ->
    exists before after c,
      s = before +:+ x +:+ after /\ Re.matches ic r x after c.
Proof.
  induction s as [|a s IH]; intros skip x Hx.
  - destruct skip as [|n]; cbn [Re.findall_from] in Hx;
      [|by apply elem_of_nil in Hx].
    destruct (Re.match_at ic r EmptyString) as [m|] eqn:E;
      [|by apply elem_of_nil in Hx].
    apply elem_of_cons in Hx as [->|Hx]; [|by apply elem_of_nil in Hx].
    apply ReFacts.match_at_sound in E as [E Hm].
    exists EmptyString, (Re.after m), (Re.groups m). by rewrite sapp_nil_l.
  - assert (Hrest : forall n, x ∈ Re.findall_from ic r s n ->
                      exists before after c,
                        String a s = before +:+ x +:+ after
                        /\ Re.matches ic r x after c).
    { intros n Hn. destruct (IH n x Hn) as (before & after & c & -> & Hm).
      by exists (String a before), after, c. }
    destruct skip as [|n]; cbn [Re.findall_from] in Hx; [|by apply (Hrest n)].
    destruct (Re.match_at ic r (String a s)) as [m|] eqn:E;
      [|by apply (Hrest 0)].
    apply elem_of_cons in Hx as [->|Hx]; [|by apply (Hrest _ Hx)].
    apply ReFacts.match_at_sound in E as [E Hm].
    exists EmptyString, (Re.after m), (Re.groups m). by rewrite sapp_nil_l.
Qed.

(** The matches of [https?://[^\s]+\.pdf]. *)
Lemma matches_pdf_url (x rest : string) (c : list string) :
  Re.matches false Patterns.pdf_url x rest c ->
  startswith "http" x = true /\ endswith ".pdf" x = true
  /\ all (fun ch => negb (isspace ch)) x = true.
Proof.
  unfold Patterns.pdf_url. intros Hm.
  inversion Hm as [| | | |? ? h x1 ? ? ? Hh H1| | | |]; subst.
  inversion H1 as [| | | |? ? o x2 ? ? ? Ho H2| | | |]; subst.
  inversion H2 as [| | | |? ? sl x3 ? ? ? Hsl H3| | | |]; subst.
  inversion H3 as [| | | |? ? run ext ? ? ? Hrun Hext| | | |]; subst.
  apply (matches_lit_exact "http") in Hh as [-> _].
  apply (matches_lit_exact "://") in Hsl as [-> _].
  apply (matches_lit_exact ".pdf") in Hext as [-> _].
  inversion Ho; subst. inversion Hrun; subst.
  split; [apply startswith_app|]. split.
  - rewrite <- !sapp_assoc. apply endswith_app.
  - rewrite !all_app.
    match goal with
    | Hs : all ?p o = true, Hr : all _ run = true |- _ =>
        rewrite Hr,
          (all_impl p (fun ch => negb (isspace ch)) o
             ltac:(intros ch Hch; apply Ascii.eqb_eq in Hch as <-; reflexivity)
             Hs)
    end.
    reflexivity.
Qed.

Lemma absolute_url_http (href : string) :
  startswith "http" (absolute_url href) = true.
Proof.
  unfold absolute_url.
  destruct (startswith "/" href); [reflexivity|].
  destruct (startswith "http" href) eqn:E; [exact E|reflexivity].
Qed.

Lemma absolute_url_lower (href : string) :
  lower (absolute_url (lower href)) = absolute_url (lower href).
Proof.
  unfold absolute_url.
  destruct (startswith "/" (lower href)).
  - by rewrite lower_app, lower_lower.
  - destruct (startswith "http" (lower href)); [apply lower_lower|].
    by rewrite !lower_app, lower_lower.
Qed.

Lemma bare_url_shape (soup : Dom.located) (u : string) :
  u ∈ bare_urls soup ->
  startswith "http" u = true /\ endswith ".pdf" u = true
  /\ all (fun ch => negb (isspace ch)) u = true
  /\ exists before after, Dom.text_of false soup = before +:+ u +:+ after.
Proof.
  intros Hu. unfold bare_urls, Re.findall in Hu.
  apply findall_from_sound in Hu as (before & after & c & Heq & Hm).
  apply matches_pdf_url in Hm as (H1 & H2 & H3).
  repeat split; try done. by exists before, after.
Qed.

(** Every bare URL the second pass finds stands in the text of the page,
    starts with [http], ends with [.pdf] and has no white space. *)
Theorem bare_urls_are_pdf_urls (soup : Dom.located) :
  Forall (fun u =>
            startswith "http" u = true /\ endswith ".pdf" u = true
            /\ all (fun ch => negb (isspace ch)) u = true
            /\ exists before after,
                 Dom.text_of false soup = before +:+ u +:+ after)
    (bare_urls soup).
Proof. apply Forall_forall. intros u Hu. by apply bare_url_shape. Qed.

(** The entries of the anchors have lowered URLs: the [href] is lowered
    before it is made absolute, whatever its case on the page, while the
    title keeps the text of the anchor. *)
Theorem anchor_urls_are_lowered (soup : Dom.located) :
  Forall (fun link =>
            match anchor_pdf_info link with
            | Some entry =>
                lower (url entry) = url entry
                /\ url entry
                   = absolute_url (lower (Dom.attr_of link "href" ""))
                /\ title entry = Dom.text_of true link
            | None => True
            end)
    (links_of soup).
Proof.
  apply Forall_forall. intros link _. unfold anchor_pdf_info.
  destruct (is_pdf _ _); [|done]. cbn [url title].
  split; [apply absolute_url_lower|done].
Qed.

(** Every entry of the list of PDF links, of an anchor or of a bare URL,
    has a URL that starts with [http], the file name of that URL, which
    ends with [.pdf], and one of the six types. *)
Theorem pdf_entries_are_well_formed (soup : Dom.located) (w : world) :
  exists entries,
    @_extract_pdf_links Dom.soup soup w = (Ok entries, w)
    /\ Forall (fun entry =>
                 startswith "http" (url entry) = true
                 /\ filename entry = _extract_filename_from_url (url entry)
                 /\ endswith ".pdf" (filename entry) = true
                 /\ pdf_type entry ∈ pdf_types)
         entries.
Proof.
  rewrite pdf_links_on_tree. eexists. split; [reflexivity|].
  destruct (add_text_urls (bare_urls soup)
              (omap anchor_pdf_info (links_of soup)))
    as (texts & -> & _ & Htexts & _).
  apply Forall_app. split; apply Forall_forall.
  - intros entry He. apply list_elem_of_omap in He as (link & _ & He).
    unfold anchor_pdf_info in He. destruct (is_pdf _ _); [|done].
    injection He as <-. cbn [url filename pdf_type].
    split; [apply absolute_url_http|]. split; [done|].
    split; [apply filename_from_url_shape|apply classify_pdf_type_in_types].
  - intros entry He. destruct (Htexts entry He) as (_ & Hu & ->).
    cbn [url filename pdf_type text_pdf_info].
    destruct (bare_url_shape soup _ Hu) as (Hh & _).
    split; [exact Hh|]. split; [done|].
    split; [apply filename_from_url_shape|apply classify_pdf_type_in_types].
Qed.

(* ===================================================================== *)
(** * Further properties: activities, publications, directors *)
(* ===================================================================== *)

Lemma length_omap_le {A B : Type} (f : A -> option B) (l : list A) :
  length (omap f l) <= length l.
Proof.
  induction l as [|x l IH]; [done|]. cbn [omap list_omap length].
  destruct (f x); simpl; lia.
Qed.

Lemma length_take_le {A : Type} (n : nat) (l : list A) :
  length (list.take n l) <= n.
Proof.
  revert l. induction n as [|n IH]; intros [|x l]; simpl; try lia.
  specialize (IH l). lia.
Qed.



Lemma publications_on_tree (soup : Dom.located) (w : world) :
  @_extract_publications Dom.soup soup w
  = (Ok (omap (fun entry => publication_of (Dom.text_of true entry))
           (publication_entries soup)),
     w).
Proof.
  unfold _extract_publications. rewrite guarded_returns.
  assert (Hbody : @publications_body Dom.soup soup []
                  = (Ok tt,
                     omap (fun entry =>
                             publication_of (Dom.text_of true entry))
                       (publication_entries soup))).
  { unfold publications_body, bind. rewrite section_of_on_tree.
    unfold publication_entries.
    destruct (section_on_tree soup Patterns.publications) as [par|];
      [|reflexivity].
    unfold lift. cbn [find_all_next Dom.soup].
    rewrite <- flat_map_option_list.
    rewrite (for_each_appends (@publication_entry Dom.soup)
               (fun entry =>
                  option_list (publication_of (Dom.text_of true entry))));
      [reflexivity|].
    intros entry acc. unfold publication_entry, bind, lift.
    cbn [get_text Dom.soup].
    destruct (publication_of (Dom.text_of true entry)); cbn [option_list].
    - reflexivity.
    - unfold ret. by rewrite app_nil_r. }
  rewrite Hbody. reflexivity.
Qed.

(** The publications are at most 200 and no more than the rows and list
    items after the marker; without marker there is none. *)
Theorem publications_are_capped (soup : Dom.located) (w : world) :
  exists publications,
    @_extract_publications Dom.soup soup w = (Ok publications, w)
    /\ length publications <= 200
    /\ length publications <= length (publication_entries soup)
    /\ (section_on_tree soup Patterns.publications = None ->
        publications = []).
Proof.
  rewrite publications_on_tree. eexists. split; [reflexivity|].
  split; [|split].
  - etransitivity; [apply length_omap_le|]. unfold publication_entries.
    destruct (section_on_tree soup Patterns.publications);
      [apply length_take_le|simpl; lia].
  - apply length_omap_le.
  - intros Hnone. unfold publication_entries. by rewrite Hnone.
Qed.

Section Directors.
Context `{H : Soup}.

Lemma nonempty_texts_state {S : Type} (l : list tag) (st : S) :
  snd (nonempty_texts l st) = st.
Proof.
  induction l as [|d l IH]; [reflexivity|].
  cbn [nonempty_texts]. unfold bind, lift.
  destruct (get_text d true) as [test|e]; [|reflexivity].
  destruct (truthy test); [|exact IH].
  destruct (nonempty_texts l st) as [[names|e] st']; exact IH.
Qed.

(** Whatever the page and whatever fails, the directors dictionary keeps
    [requires_registration] true and the registration message, also when
    names were found; and names are only there when [available] is
    true. *)
Theorem directors_flags_never_change (soup : tag) (w : world) :
  exists d w',
    _extract_directors soup w = (Ok d, w')
    /\ requires_registration d = true
    /\ message d = "Directors information requires registration"
    /\ (is_Some (directors d) -> available d = true).
Proof.
  unfold _extract_directors. rewrite guarded_returns. eexists _, _.
  split; [reflexivity|].
  unfold directors_body, section_of, bind, lift, ret, modify.
  destruct (find_string soup Patterns.directors) as [[s|]|e];
    [|by repeat split; intros [? ?]|by repeat split; intros [? ?]].
  destruct (truthy (str_of s)); [|by repeat split; intros [? ?]].
  destruct (parent s) as [[par|]|e];
    [|by repeat split; intros [? ?]|by repeat split; intros [? ?]].
  destruct (find_string par Patterns.registration) as [registration_msg|e];
    [|by repeat split; intros [? ?]].
  destruct (match registration_msg with
            | Some r => truthy (str_of r)
            | None => false
            end); [by repeat split; intros [? ?]|].
  destruct (find_all par ["li"; "tr"]) as [[|item items]|e];
    [by repeat split; intros [? ?]| |by repeat split; intros [? ?]].
  pose proof (nonempty_texts_state (item :: items)
                (DirectorsInfo true (requires_registration default_directors)
                   (message default_directors)
                   (directors default_directors))) as Hst.
  destruct (nonempty_texts (item :: items) _) as [[names|e] st'];
    cbn [snd] in Hst; subst st'; by repeat split.
Qed.

End Directors.

Lemma nonempty_texts_on_tree {S : Type} (l : list Dom.located) (st : S) :
  @nonempty_texts Dom.soup S l st
  = (Ok (List.filter truthy (map (Dom.text_of true) l)), st).
Proof.
  induction l as [|d l IH]; [reflexivity|].
  cbn [nonempty_texts map List.filter]. unfold bind, lift.
  cbn [get_text Dom.soup].
  destruct (truthy (Dom.text_of true d)); by rewrite IH.
Qed.

Lemma directors_body_on_tree (soup : Dom.located) :
  @directors_body Dom.soup soup default_directors
  = (Ok tt, directors_on_tree soup).
Proof.
  unfold directors_body, directors_on_tree, bind.
  rewrite section_of_on_tree.
  destruct (section_on_tree soup Patterns.directors) as [par|];
    [|reflexivity].
  unfold lift, registration_notice, director_items.
  cbn [find_string find_all str_of Dom.soup].
  destruct (Dom.string_matching _ Patterns.registration _) as [r|].
  - destruct (truthy (Dom.string_of r)); [reflexivity|].
    destruct (Dom.tags_named _ _ _) as [|item items] eqn:E; [reflexivity|].
    unfold modify at 1. rewrite nonempty_texts_on_tree. reflexivity.
  - destruct (Dom.tags_named _ _ _) as [|item items] eqn:E; [reflexivity|].
    unfold modify at 1. rewrite nonempty_texts_on_tree. reflexivity.
Qed.

(** On a parsed page: the registration notice under the parent of the
    marker hides whatever names stand there; otherwise the list items and
    rows under that parent make the directors available, their names being
    the texts that are not empty, so that items of empty text only give an
    available, empty list; names are there exactly when [available] is
    true, and no name is the empty string. *)
Theorem directors_names_on_tree (soup : Dom.located) (w : world) :
  @_extract_directors Dom.soup soup w = (Ok (directors_on_tree soup), w)
  /\ (available (directors_on_tree soup) = true
      <-> is_Some (directors (directors_on_tree soup)))
  /\ (forall names,
        directors (directors_on_tree soup) = Some names ->
        Forall (fun name => truthy name = true) names)
  /\ (forall parent_tag,
        section_on_tree soup Patterns.directors = Some parent_tag ->
        (registration_notice parent_tag = true ->
         directors_on_tree soup = default_directors)
        /\ (registration_notice parent_tag = false ->
            director_items parent_tag <> [] ->
            available (directors_on_tree soup) = true
            /\ directors (directors_on_tree soup)
               = Some (List.filter truthy
                         (map (Dom.text_of true)
                            (director_items parent_tag))))).
Proof.
  split; [|split; [|split]].
  - unfold _extract_directors. rewrite guarded_returns.
    by rewrite directors_body_on_tree.
  - unfold directors_on_tree.
    destruct (section_on_tree soup Patterns.directors) as [par|];
      [|by split; [|intros [? ?]]].
    destruct (registration_notice par); [by split; [|intros [? ?]]|].
    destruct (director_items par); [by split; [|intros [? ?]]|].
    cbn. split; [by eexists|done].
  - intros names. unfold directors_on_tree.
    destruct (section_on_tree soup Patterns.directors) as [par|]; [|done].
    destruct (registration_notice par); [done|].
    destruct (director_items par) as [|item items]; [done|].
    cbn [directors]. intros [= <-].
    assert (Hfilter : forall l : list string,
               Forall (fun name => truthy name = true) (List.filter truthy l)).
    { intros l. apply Forall_forall. intros name Hn.
      apply list_elem_of_In, filter_In in Hn. by destruct Hn. }
    exact (Hfilter (map (Dom.text_of true) (item :: items))).
  - intros par Hsec. unfold directors_on_tree. rewrite Hsec. split.
    + by intros ->.
    + intros -> Hitems. by destruct (director_items par).
Qed.

(* ===================================================================== *)
(** * Further properties: the basic information *)
(* ===================================================================== *)

Lemma for_each_fold {S A : Type} (body : A -> M S unit) (f : S -> A -> S)
    (l : list A) :
  (forall x st, body x st = (Ok tt, f st x)) ->
  forall st, for_each l body st = (Ok tt, fold_left f l st).
Proof.
  intros Hbody. induction l as [|x l IH]; intros st; [reflexivity|].
  cbn [for_each fold_left]. unfold bind. by rewrite Hbody, IH.
Qed.

Lemma fold_left_flat_map {S A B : Type} (f : S -> B -> S) (g : A -> list B)
    (l : list A) (st : S) :
  fold_left f (flat_map g l) st
  = fold_left (fun st' x => fold_left f (g x) st') l st.
Proof.
  revert st. induction l as [|x l IH]; intros st; [reflexivity|].
  cbn [flat_map fold_left]. by rewrite fold_left_app, IH.
Qed.

Lemma fold_left_omap {S A B : Type} (f : S -> B -> S) (g : A -> option B)
    (l : list A) (st : S) :
  fold_left f (omap g l) st
  = fold_left (fun st' x => match g x with
                            | Some y => f st' y
                            | None => st'
                            end) l st.
Proof.
  revert st. induction l as [|x l IH]; intros st; [reflexivity|].
  cbn [omap list_omap fold_left]. destruct (g x); cbn [fold_left]; apply IH.
Qed.

Lemma basic_info_row_on_tree (row : Dom.located) (info : gmap string string) :
  @basic_info_row Dom.soup row info
  = (Ok tt, match label_of_row row with
            | Some entry => store info entry
            | None => info
            end).
Proof.
  unfold basic_info_row, label_of_row, bind, lift.
  cbn [find_all Dom.soup]. fold (cells_of row).
  destruct (cells_of row) as [|c0 [|c1 cells]]; try reflexivity.
  cbn [length Nat.leb index nth_error get_text Dom.soup]. unfold ret, store.
  cbn [fst snd]. by destruct (key_mapping !! lower (Dom.text_of true c0)).
Qed.

(** The rows and the address, once the heading is stored. *)
Ltac basic_info_tail soup :=
  unfold bind at 1, lift at 1; cbn [find_all Dom.soup];
  fold (tables_of soup); unfold bind at 1;
  rewrite (for_each_fold _
             (fun info table =>
                fold_left
                  (fun info' row => match label_of_row row with
                                    | Some entry => store info' entry
                                    | None => info'
                                    end)
                  (rows_of table) info))
    by (intros table st; unfold bind, lift; cbn [find_all Dom.soup];
        fold (rows_of table); apply for_each_fold;
        apply basic_info_row_on_tree);
  rewrite <- (fold_left_flat_map
                (fun info' row => match label_of_row row with
                                  | Some entry => store info' entry
                                  | None => info'
                                  end) rows_of);
  rewrite <- (fold_left_omap store label_of_row);
  fold (labelled_rows soup);
  unfold bind, lift; cbn [find_string str_of Dom.soup];
  unfold address_on_tree;
  destruct (Dom.string_matching _ Patterns.address _) as [a|];
    [|reflexivity];
  by destruct (truthy (Dom.string_of a)).

(** The basic information on a tree. *)
Lemma basic_info_on_tree_returned (soup : Dom.located) (w : world) :
  @_extract_basic_info Dom.soup soup w = (Ok (basic_info_on_tree soup), w).
Proof.
  unfold _extract_basic_info. rewrite guarded_returns.
  assert (Hbody : @basic_info_body Dom.soup soup ∅
                  = (Ok tt, basic_info_on_tree soup)).
  { unfold basic_info_body, basic_info_on_tree.
    assert (Hname : forall S (st : S),
               @find_name_elem Dom.soup S soup st = (Ok (heading_of soup), st)).
    { intros S st. unfold find_name_elem, heading_of, bind, lift, ret.
      cbn [find Dom.soup].
      destruct (hd_error (Dom.tags_named _ ["h1"] _)); [reflexivity|].
      by destruct (hd_error (Dom.tags_named _ ["h2"] _)). }
    unfold bind at 1. rewrite Hname. unfold bind at 1.
    destruct (heading_of soup) as [e|].
    - unfold bind at 1, lift at 1, modify at 1. cbn [get_text Dom.soup].
      basic_info_tail soup.
    - unfold ret at 1. basic_info_tail soup. }
  rewrite Hbody. reflexivity.
Qed.

Lemma fold_store_other (entries : list (string * string))
    (info : gmap string string) (key : string) :
  key ∉ map fst entries -> fold_left store entries info !! key = info !! key.
Proof.
  revert info. induction entries as [|[k v] entries IH]; intros info Hk;
    [reflexivity|].
  cbn [fold_left]. rewrite IH.
  - unfold store. cbn [fst snd]. apply lookup_insert_ne.
    intros ->. apply Hk. cbn [map fst]. apply list_elem_of_here.
  - intros Hin. apply Hk. cbn [map]. by apply list_elem_of_further.
Qed.

Lemma fold_store_last (before after : list (string * string))
    (info : gmap string string) (key value : string) :
  key ∉ map fst after ->
  fold_left store (before ++ (key, value) :: after) info !! key = Some value.
Proof.
  intros Hk. rewrite fold_left_app. cbn [fold_left].
  rewrite fold_store_other by done. unfold store. cbn [fst snd].
  apply lookup_insert_eq.
Qed.

(** In the basic information the last row of a key wins: a table row is
    stored under its key (the Dutch labels translated, the others kept in
    lower case), over the heading and over every earlier row of the same
    key.  (The key [full_address] is the one the address search writes
    last.) *)
Theorem basic_info_last_row_wins (soup : Dom.located) (w : world)
    (before after : list (string * string)) (key value : string)
    (Hrows : labelled_rows soup = before ++ (key, value) :: after)
    (Hlast : key ∉ map fst after)
    (Hkey : key <> "full_address") :
  exists info,
    @_extract_basic_info Dom.soup soup w = (Ok info, w)
    /\ info !! key = Some value.
Proof.
  rewrite basic_info_on_tree_returned. eexists. split; [reflexivity|].
  unfold basic_info_on_tree. rewrite Hrows.
  destruct (address_on_tree soup).
  - rewrite lookup_insert_ne by done. by apply fold_store_last.
  - by apply fold_store_last.
Qed.

(** An instance: the later row of the company name wins over the earlier
    one and over the heading. *)
Lemma basic_info_last_row_wins_witness :
  exists info,
    @_extract_basic_info Dom.soup (Dom.page labelled_page) (World [] 0)
    = (Ok info, World [] 0)
    /\ info !! "company_name" = Some "Acme NV".
Proof.
  apply (basic_info_last_row_wins (Dom.page labelled_page) (World [] 0)
           [ ("company_name", "Oude naam");
             ("company_number", "0403.200.393") ]
           [ ("publications", "geen") ] "company_name" "Acme NV").
  - vm_compute. reflexivity.
  - intros Hin. apply elem_of_cons in Hin as [Heq|Hin]; [done|].
    by apply elem_of_nil in Hin.
  - done.
Defined.

(** Where no table row has the key [company_name], the company name is the
    stripped text of the first [h1], else of the first [h2], else of the
    [title]; it is absent when the page has none of them. *)
Theorem company_name_from_heading (soup : Dom.located) (w : world)
    (Hrows : "company_name" ∉ map fst (labelled_rows soup)) :
  exists info,
    @_extract_basic_info Dom.soup soup w = (Ok info, w)
    /\ info !! "company_name" = Dom.text_of true <$> heading_of soup.
Proof.
  rewrite basic_info_on_tree_returned. eexists. split; [reflexivity|].
  unfold basic_info_on_tree.
  assert (Hfold : fold_left store (labelled_rows soup)
                    (match heading_of soup with
                     | Some e => <["company_name" := Dom.text_of true e]> ∅
                     | None => ∅
                     end) !! "company_name"
                  = Dom.text_of true <$> heading_of soup).
  { rewrite fold_store_other by done.
    destruct (heading_of soup); [apply lookup_insert_eq|done]. }
  destruct (address_on_tree soup); [|exact Hfold].
  by rewrite lookup_insert_ne.
Qed.

(** An instance: the sample page, whose table has no such row. *)
Lemma company_name_from_heading_witness :
  exists info,
    @_extract_basic_info Dom.soup (Dom.page Samples.company_page) (World [] 0)
    = (Ok info, World [] 0)
    /\ info !! "company_name" = Some "Acme NV".
Proof.
  apply (company_name_from_heading (Dom.page Samples.company_page)
           (World [] 0)).
  vm_compute. intros Hin.
  repeat (apply elem_of_cons in Hin as [Heq|Hin]; [discriminate Heq|]).
  by apply elem_of_nil in Hin.
Defined.

(* ===================================================================== *)
(** * Further properties: the assembled record and the envelope *)
(* ===================================================================== *)

Section Record.
Context `{P : Platform}.

(** The six collections of the company dictionary are always the lists
    and the directors dictionary of the extractors, whatever keys the
    rows of the page have put in the basic information; the company
    number and the time of scraping are those of the page when a row has
    such a key, and every other key is a key of the basic information. *)
Theorem company_data_keys (soup : tag) (company_number : string) (w : world) :
  exists company_data w',
    _parse_company_page soup company_number w = (Ok company_data, w')
    /\ company_data !! "financial_data"
       = Some (VFinancial (snd (financial_body soup [])))
    /\ company_data !! "activities"
       = Some (VActivities (snd (activities_body soup [])))
    /\ company_data !! "publications"
       = Some (VPublications (snd (publications_body soup [])))
    /\ company_data !! "directors"
       = Some (VDirectors (snd (directors_body soup default_directors)))
    /\ company_data !! "pdf_links"
       = Some (VPdfLinks (snd (pdf_links_body soup [])))
    /\ company_data !! "company_number"
       = Some (VStr (match snd (basic_info_body soup ∅) !! "company_number" with
                     | Some number => number
                     | None => company_number
                     end))
    /\ company_data !! "scraped_at"
       = Some (VStr (match snd (basic_info_body soup ∅) !! "scraped_at" with
                     | Some time => time
                     | None => isoformat (ticks w)
                     end))
    /\ forall key,
         key ∉ [ "financial_data"; "activities"; "publications"; "directors";
                 "pdf_links"; "company_number"; "scraped_at" ] ->
         company_data !! key = VStr <$> snd (basic_info_body soup ∅) !! key.
Proof.
  destruct (parse_company_page_returns soup company_number w) as (w' & -> & _).
  eexists _, w'. split; [reflexivity|]. unfold company_data_of.
  do 5 (split; [repeat (rewrite lookup_insert_ne by done);
                by rewrite lookup_insert_eq|]).
  split; [|split].
  - repeat (rewrite lookup_insert_ne by done).
    rewrite lookup_union, lookup_fmap.
    destruct (snd (basic_info_body soup ∅) !! "company_number");
      cbn; [reflexivity|].
    rewrite lookup_insert_ne by done. by rewrite lookup_insert_eq.
  - repeat (rewrite lookup_insert_ne by done).
    rewrite lookup_union, lookup_fmap.
    destruct (snd (basic_info_body soup ∅) !! "scraped_at");
      cbn; [reflexivity|].
    by rewrite lookup_insert_eq.
  - intros key Hkey.
    assert (Hne : forall k, k ∈ [ "financial_data"; "activities";
                                  "publications"; "directors"; "pdf_links";
                                  "company_number"; "scraped_at" ] ->
                            k <> key).
    { intros k Hk ->. by apply Hkey. }
    rewrite !lookup_insert_ne by (apply Hne; in_list).
    rewrite lookup_union, lookup_fmap.
    rewrite !lookup_insert_ne by (apply Hne; in_list).
    rewrite lookup_empty. by destruct (snd (basic_info_body soup ∅) !! key).
Qed.


End Record.


(** On the page whose table has the rows "Ondernemingsnummer" and
    "Publications", the company number of the record is the one of the
    page, dots included, and the publications are still the list. *)
Example labelled_page_record :
  exists company_data w',
    @_parse_company_page Dom.soup (Dom.serving (Some labelled_page))
      (Dom.page labelled_page) "0403200393" (World [] 0)
    = (Ok company_data, w')
    /\ company_data !! "company_number" = Some (VStr "0403.200.393")
    /\ company_data !! "company_name" = Some (VStr "Acme NV")
    /\ company_data !! "publications" = Some (VPublications []).
Proof. eexists _, _. split; [vm_compute; reflexivity|]. by vm_compute. Qed.

(* ===================================================================== *)
(** * Further properties: failures inside the financial extractor *)
(* ===================================================================== *)


Section FinancialFailures.
Context `{H : Soup}.



End FinancialFailures.



(** The same failure seen from the extractor: with an [IndexError] the
    other rows are still read and nothing is logged; with another class the
    extraction ends there, with a warning. *)
Example index_error_and_other_errors :
  @_extract_financial_data
    (failing_at (Some [1; 1; 2]) None (Exn "IndexError" "cell"))
    (Dom.page Samples.company_page) (World [] 0)
  = (Ok [ FinancialYear "2021-12-31" "800" "160" "30" "8" "400" "70" ],
     World [] 0)
  /\ @_extract_financial_data
       (failing_at (Some [1; 1; 2]) None (Exn "ValueError" "cell"))
       (Dom.page Samples.company_page) (World [] 0)
     = (Ok [],
        World [LogWarning "Error extracting financial data: cell"] 0).
Proof. split; vm_compute; reflexivity. Qed.
